(** * El-Galeri API: products, users and orders over a document store

    A shallow embedding of the Express route handlers of [routes/orders.js],
    [routes/products.js] and [routes/users.js].

    - The document store (the four Mongoose models) is a record of finite
      maps from ObjectIds to documents.
    - Every storage call of a handler draws the outcome the driver gives it
      from the world: the call is carried out, or its promise resolves to
      [null], or it rejects.
    - A handler is a function from the request and the world to the [res]
      object (status code and every body it was asked to send) and the new
      world.
    - JavaScript numbers and the bcryptjs library are interfaces (type
      classes): nothing in the handlers depends on more than the operations
      they call. *)

From Stdlib Require Import Ascii PrimFloat.
From stdpp Require Import gmap strings list fin_maps pretty.

Set Default Proof Using "Type".

(* ===================================================================== *)
(** ** Interfaces of the platform                                         *)
(* ===================================================================== *)

(** The values found in numeric slots ([price], [quantity], [totalPrice])
    with JavaScript's [+] and [*] and the literal [0].  No law is assumed:
    floating point addition is not associative and the handlers never rely
    on it. *)
Class JsNumber := {
  number : Type;
  jzero : number;
  jadd : number → number → number;
  jmul : number → number → number;
}.

(** [bcryptjs].  [bcrypt_hash s rounds seed] is [bcrypt.hash(s, rounds)],
    where [s] is whatever the request body holds ([None] is [undefined]),
    [seed] is the randomness the salt is drawn from, and [None] as a result
    is a rejected promise (the library rejects with "Illegal arguments" what
    is not a string).  [bcrypt_compare s h] is [bcrypt.compare]. *)
Class Bcrypt := {
  bcrypt_hash : option string → nat → nat → option string;
  bcrypt_compare : string → string → bool;
}.

(* ===================================================================== *)
(** ** Documents                                                          *)
(* ===================================================================== *)

(** ObjectIds.  The driver numbers the documents it constructs.  An id in a
    request is one the driver can read: a string it cannot cast to an
    ObjectId makes the call reject, which is one of the failures below. *)
Abbreviation oid := nat (only parsing).

Module User.
(** Modelled from the spec: the schema of [models/User.js], which is not
    among the sources; the fields are those of the data model, which are
    those the handlers assign. *)
Record doc := {
  name : option string;
  email : option string;
  password : string;
  isAdmin : option bool;
}.
End User.

Module Product.
(** Modelled from the spec: the schema of [models/Product.js], which is not
    among the sources ([dateCreated], a default of the schema, is left
    out). *)
Record doc {N : JsNumber} := {
  name : option string;
  description : option string;
  detailDescription : option string;
  image : string;
  images : list string;
  price : number;
  stock : number;
}.

Definition set_images {N : JsNumber} (l : list string) (p : doc) : doc :=
  {| name := name p; description := description p;
     detailDescription := detailDescription p; image := image p;
     images := l; price := price p; stock := stock p |}.
End Product.

Module OrderItem.
(** Modelled from the spec: the schema of [models/OrderItem.js], which is
    not among the sources.  It is also the shape of the entries of
    [req.body.orderItems]. *)
Record doc {N : JsNumber} := {
  quantity : number;
  product : option oid;
}.
End OrderItem.

Module Order.
(** Modelled from the spec: the schema of [models/Order.js], which is not
    among the sources ([dateOrdered], a default of the schema, is left
    out). *)
Record doc {N : JsNumber} := {
  orderItems : list oid;
  totalPrice : number;
  user : option oid;
}.
End Order.

(* ===================================================================== *)
(** ** The world of a request                                             *)
(* ===================================================================== *)

(** What the driver does with one storage call: it carries it out, or the
    promise resolves to [null] with nothing done (the case the [if (!x)] of
    the handlers is there for), or the promise rejects with nothing done. *)
Inductive outcome := Fulfil | Nullish | Reject.

(** What [await] gives back to the handler. *)
Inductive awaited (A : Type) :=
  | Value (a : A)
  | Null
  | Thrown.
Arguments Value {A} a.
Arguments Null {A}.
Arguments Thrown {A}.

Section Model.
Context {N : JsNumber} {B : Bcrypt}.

Record store := {
  Users : gmap oid User.doc;
  Products : gmap oid Product.doc;
  OrderItems : gmap oid OrderItem.doc;
  Orders : gmap oid Order.doc;
}.

Record world := {
  db : store;
  next_oid : oid;             (* the ObjectId the next new document gets *)
  faults : list outcome;      (* outcomes of the storage calls to come;
                                 once exhausted every call is carried out *)
  entropy : nat;              (* randomness left for bcrypt salts *)
  in_flight : list oid;       (* OrderItem removals issued and not awaited *)
  clock : nat;                (* what [Date.now()] reads next *)
}.

Definition set_db (f : store → store) (w : world) : world :=
  {| db := f (db w); next_oid := next_oid w; faults := faults w;
     entropy := entropy w; in_flight := in_flight w; clock := clock w |}.

Definition set_Users (m : gmap oid User.doc) (s : store) : store :=
  {| Users := m; Products := Products s; OrderItems := OrderItems s;
     Orders := Orders s |}.
Definition set_Products (m : gmap oid Product.doc) (s : store) : store :=
  {| Users := Users s; Products := m; OrderItems := OrderItems s;
     Orders := Orders s |}.
Definition set_OrderItems (m : gmap oid OrderItem.doc) (s : store) : store :=
  {| Users := Users s; Products := Products s; OrderItems := m;
     Orders := Orders s |}.
Definition set_Orders (m : gmap oid Order.doc) (s : store) : store :=
  {| Users := Users s; Products := Products s; OrderItems := OrderItems s;
     Orders := m |}.

(** [new Model({...})]: the document gets its [_id] when it is constructed. *)
Definition new_oid (w : world) : oid * world :=
  (next_oid w,
   {| db := db w; next_oid := S (next_oid w); faults := faults w;
      entropy := entropy w; in_flight := in_flight w; clock := clock w |}).

(** The outcome of the next storage call. *)
Definition draw (w : world) : outcome * world :=
  (hd Fulfil (faults w),
   {| db := db w; next_oid := next_oid w; faults := tl (faults w);
      entropy := entropy w; in_flight := in_flight w; clock := clock w |}).

Definition draw_entropy (w : world) : nat * world :=
  (entropy w,
   {| db := db w; next_oid := next_oid w; faults := faults w;
      entropy := S (entropy w); in_flight := in_flight w; clock := clock w |}).

Definition Date_now (w : world) : nat * world :=
  (clock w,
   {| db := db w; next_oid := next_oid w; faults := faults w;
      entropy := entropy w; in_flight := in_flight w; clock := S (clock w) |}).

Definition issue (ids : list oid) (w : world) : world :=
  {| db := db w; next_oid := next_oid w; faults := faults w;
     entropy := entropy w; in_flight := in_flight w ++ ids; clock := clock w |}.

(* ===================================================================== *)
(** ** The storage calls the handlers make                                *)
(* ===================================================================== *)

Section Queries.
Context {A : Type}.
Implicit Types (coll : gmap oid A) (id : oid) (o : outcome).

(** [Model.find()] *)
Definition find coll o : awaited (list (oid * A)) :=
  match o with
  | Fulfil => Value (map_to_list coll)
  | Nullish => Null
  | Reject => Thrown
  end.

(** [Model.findById(id)] *)
Definition findById coll id o : awaited A :=
  match o with
  | Fulfil => match coll !! id with Some d => Value d | None => Null end
  | Nullish => Null
  | Reject => Thrown
  end.

(** [doc.save()] of a document just constructed: an insert, refused when
    the [_id] is taken. *)
Definition save coll id (d : A) o : awaited A * gmap oid A :=
  match o with
  | Fulfil =>
      match coll !! id with
      | Some _ => (Thrown, coll)
      | None => (Value d, <[id := d]> coll)
      end
  | Nullish => (Null, coll)
  | Reject => (Thrown, coll)
  end.

(** [Model.findByIdAndUpdate(id, fields, { new: true })] *)
Definition findByIdAndUpdate coll id (upd : A → A) o : awaited A * gmap oid A :=
  match o with
  | Fulfil =>
      match coll !! id with
      | Some d => (Value (upd d), <[id := upd d]> coll)
      | None => (Null, coll)
      end
  | Nullish => (Null, coll)
  | Reject => (Thrown, coll)
  end.

(** [Model.findByIdAndRemove(id)] *)
Definition findByIdAndRemove coll id o : awaited A * gmap oid A :=
  match o with
  | Fulfil =>
      match coll !! id with
      | Some d => (Value d, delete id coll)
      | None => (Null, coll)
      end
  | Nullish => (Null, coll)
  | Reject => (Thrown, coll)
  end.

(** [Promise.all]: the list of values, or the rejection.  A callback that
    got [null] from its call dereferences it and throws. *)
Fixpoint all (ps : list (awaited A)) : awaited (list A) :=
  match ps with
  | [] => Value []
  | Value a :: rest =>
      match all rest with
      | Value l => Value (a :: l)
      | _ => Thrown
      end
  | _ :: _ => Thrown
  end.
End Queries.

(* ===================================================================== *)
(** ** The response object                                                *)
(* ===================================================================== *)

Inductive body :=
  | JEnvelope (success : bool) (key text : string) (* { success, key: text } *)
  | JUser (id : oid) (u : User.doc)
  | JUsers (l : list (oid * User.doc))
  | JProduct (id : oid) (p : Product.doc)
  | JProducts (l : list (oid * Product.doc))
  | JOrder (id : oid) (o : Order.doc)
  | JNull
  | JRes                                 (* the [res] object itself *)
  | JErrorPage.                          (* Express's default error page *)

(** [sent] lists every body the handler asked [res] to send, with the status
    code [res] had then.  Express puts the first on the wire; a later one
    finds the headers already sent. *)
Record res := {
  statusCode : nat;
  sent : list (nat * body);
}.

Definition res0 : res := {| statusCode := 200; sent := [] |}.

Definition status (c : nat) (r : res) : res :=
  {| statusCode := c; sent := sent r |}.

Definition send (b : body) (r : res) : res :=
  {| statusCode := statusCode r; sent := sent r ++ [(statusCode r, b)] |}.

Definition message (ok : bool) (text : string) : body :=
  JEnvelope ok "message" text.

Definition on_wire (r : res) : option (nat * body) := head (sent r).

(* ===================================================================== *)
(** ** routes/orders.js                                                   *)
(* ===================================================================== *)

Record orders_body := {
  body_orderItems : option (list OrderItem.doc);   (* req.body.orderItems *)
  body_user : option oid;                          (* req.body.user *)
}.

Definition internal_error_s : res :=
  send (message false "Internal Server Error!s") (status 500 res0).

(** The first [Promise.all]: every callback constructs its OrderItem and
    calls [save] before any of them is resumed, so every save is issued,
    whatever becomes of the others.  The saves are on distinct new ids, so
    the order in which the driver carries them out does not show. *)
Fixpoint save_order_items (items : list OrderItem.doc) (w : world)
  : list (awaited oid) * world :=
  match items with
  | [] => ([], w)
  | orderItem :: rest =>
      let '(id, w1) := new_oid w in
      let newOrderItem :=
        {| OrderItem.quantity := OrderItem.quantity orderItem;
           OrderItem.product := OrderItem.product orderItem |} in
      let '(o, w2) := draw w1 in
      let '(r, coll) := save (OrderItems (db w2)) id newOrderItem o in
      let w3 := set_db (set_OrderItems coll) w2 in
      let '(rs, w4) := save_order_items rest w3 in
      ((match r with Value _ => Value id | _ => Thrown end) :: rs, w4)
  end.

(** [OrderItem.findById(id).populate("product", "price")] and then
    [orderItem.product.price * orderItem.quantity]; a missing OrderItem or
    a missing product is a [null] that the callback dereferences. *)
Definition item_total (s : store) (orderItemId : oid) (o : outcome)
  : awaited number :=
  match findById (OrderItems s) orderItemId o with
  | Value orderItem =>
      match OrderItem.product orderItem with
      | Some pid =>
          match Products s !! pid with
          | Some p => Value (jmul (Product.price p) (OrderItem.quantity orderItem))
          | None => Thrown
          end
      | None => Thrown
      end
  | _ => Thrown
  end.

Fixpoint total_prices (ids : list oid) (w : world)
  : list (awaited number) * world :=
  match ids with
  | [] => ([], w)
  | orderItemId :: rest =>
      let '(o, w1) := draw w in
      let r := item_total (db w1) orderItemId o in
      let '(rs, w2) := total_prices rest w1 in
      (r :: rs, w2)
  end.

(** [totalPrices.reduce((a, b) => a + b, 0)] *)
Definition reduce_sum (totalPrices : list number) : number :=
  fold_left jadd totalPrices jzero.

(** The [try] block of [router.post("/")] of orders: the answer it sends, or
    [Thrown] where an awaited promise rejects or [null] is dereferenced. *)
Definition post_orders_try (req : orders_body) (w : world)
  : awaited res * world :=
  match body_orderItems req with
  | None => (Thrown, w)                 (* [undefined.map] *)
  | Some items =>
      let '(saved, w1) := save_order_items items w in
      match all saved with
      | Value orderItemsIds =>
          let '(prices, w2) := total_prices orderItemsIds w1 in
          match all prices with
          | Value totalPrices =>
              let totalPrice := reduce_sum totalPrices in
              let '(id, w3) := new_oid w2 in
              let order :=
                {| Order.orderItems := orderItemsIds;
                   Order.totalPrice := totalPrice;
                   Order.user := body_user req |} in
              let '(o, w4) := draw w3 in
              let '(r, coll) := save (Orders (db w4)) id order o in
              let w5 := set_db (set_Orders coll) w4 in
              match r with
              | Value d => (Value (send (JOrder id d) res0), w5)
              | Null =>
                  (Value (send (message false "Failed to create order!")
                            (status 400 res0)), w5)
              | Thrown => (Thrown, w5)
              end
          | _ => (Thrown, w2)
          end
      | _ => (Thrown, w1)
      end
  end.

(** [router.post("/")] of orders: the [try] block and its [catch]. *)
Definition post_orders (req : orders_body) (w : world) : res * world :=
  match post_orders_try req w with
  | (Value r, w') => (r, w')
  | (_, w') => (internal_error_s, w')
  end.

(** [router.delete("/:id")] of orders.  The handler awaits the array that
    [map] returns, which is not a promise: the removals are issued and the
    handler goes on to answer without waiting for any of them. *)
Definition delete_order (id : oid) (w : world) : res * world :=
  let '(o, w1) := draw w in
  let '(r, coll) := findByIdAndRemove (Orders (db w1)) id o in
  let w2 := set_db (set_Orders coll) w1 in
  match r with
  | Thrown =>
      (* [deletedOrder] is [res]; [res.orderItems.map] throws after the 500 *)
      (send (message false "Internal Server Error!") (status 500 res0), w2)
  | Null => (send (message false "Order not found!") (status 404 res0), w2)
  | Value deletedOrder =>
      (send (message true "Order successfully deleted!") (status 200 res0),
       issue (Order.orderItems deletedOrder) w2)
  end.

(** The removals in flight come to their end: each is carried out or fails,
    and a failure reaches nobody. *)
Fixpoint run_removals (ids : list oid) (w : world) : world :=
  match ids with
  | [] => w
  | orderItem :: rest =>
      let '(o, w1) := draw w in
      let '(_, coll) := findByIdAndRemove (OrderItems (db w1)) orderItem o in
      run_removals rest (set_db (set_OrderItems coll) w1)
  end.

Definition settle (w : world) : world :=
  run_removals (in_flight w)
    {| db := db w; next_oid := next_oid w; faults := faults w;
       entropy := entropy w; in_flight := []; clock := clock w |}.

(* ===================================================================== *)
(** ** routes/products.js: the upload middleware                          *)
(* ===================================================================== *)

(** A file part of a multipart form, as multer hands it to the storage
    engine. *)
Record upload := {
  fieldname : string;
  originalname : string;
  mimetype : string;
}.

(** The body of a request to an upload route. *)
Inductive form :=
  | NotMultipart
  | Multipart (parts : list upload).

(** The functions an object literal inherits from [Object.prototype], each
    with the name it prints under. *)
Definition Object_prototype_functions : list (string * string) :=
  [("constructor", "Object");
   ("__defineGetter__", "__defineGetter__");
   ("__defineSetter__", "__defineSetter__");
   ("hasOwnProperty", "hasOwnProperty");
   ("__lookupGetter__", "__lookupGetter__");
   ("__lookupSetter__", "__lookupSetter__");
   ("isPrototypeOf", "isPrototypeOf");
   ("propertyIsEnumerable", "propertyIsEnumerable");
   ("toString", "toString");
   ("valueOf", "valueOf");
   ("toLocaleString", "toLocaleString")].

(** [FILE_TYPE_MAP[mimetype]], as a template literal prints it; [None] is
    [undefined], and everything else the lookup gives is truthy.  The lookup
    is one in an object literal: besides its three own keys it finds what the
    literal inherits, the functions of [Object.prototype] and, under
    [__proto__], that prototype itself. *)
Definition FILE_TYPE_MAP (mimetype : string) : option string :=
  if String.eqb mimetype "image/png" then Some "png"
  else if String.eqb mimetype "image/jpeg" then Some "jpeg"
  else if String.eqb mimetype "image/jpg" then Some "jpg"
  else if String.eqb mimetype "__proto__" then Some "[object Object]"
  else
    match list_find (λ e, e.1 = mimetype) Object_prototype_functions with
    | Some (_, (_, name)) => Some ("function " +:+ name +:+ "() { [native code] }")
    | None => None
    end.

(** [s.split(" ").join("-")] *)
Fixpoint dashes (s : string) : string :=
  match s with
  | EmptyString => EmptyString
  | String c rest =>
      String (if Ascii.eqb c " "%char then "-"%char else c) (dashes rest)
  end.

(** [storage.filename] *)
Definition storage_filename (file : upload) (now : nat) (extension : string)
  : string :=
  dashes (originalname file) +:+ "-" +:+ pretty now +:+ "." +:+ extension.

(** [storage.destination] and then [storage.filename] for one part: the
    generated file name, or the upload error. *)
Definition store_file (file : upload) (w : world) : option string * world :=
  match FILE_TYPE_MAP (mimetype file) with
  | None => (None, w)                   (* "invalid image type" *)
  | Some extension =>
      let '(now, w1) := Date_now w in
      (Some (storage_filename file now extension), w1)
  end.

(** multer with the parts of one field name, at most [limit] of them: the
    file names it stored, or the error it passes on (a part of another
    field, one part too many, a refused type). *)
Fixpoint store_parts (field : string) (limit : nat) (parts : list upload)
    (w : world) {struct parts} : option (list string) * world :=
  match parts with
  | [] => (Some [], w)
  | file :: rest =>
      if String.eqb (fieldname file) field then
        match limit with
        | 0 => (None, w)
        | S limit' =>
            match store_file file w with
            | (Some filename, w1) =>
                match store_parts field limit' rest w1 with
                | (Some l, w2) => (Some (filename :: l), w2)
                | (None, w2) => (None, w2)
                end
            | (None, w1) => (None, w1)
            end
        end
      else (None, w)
  end.

(** What a multer middleware leaves for the handler. *)
Inductive uploaded (A : Type) :=
  | Next (a : A)
  | UploadError.
Arguments Next {A} a.
Arguments UploadError {A}.

(** [uploadOptions.single(field)]: [req.file], which stays [undefined]
    unless a part arrives. *)
Definition upload_single (field : string) (f : form) (w : world)
  : uploaded (option string) * world :=
  match f with
  | NotMultipart => (Next None, w)
  | Multipart parts =>
      match store_parts field 1 parts w with
      | (Some l, w1) => (Next (head l), w1)
      | (None, w1) => (UploadError, w1)
      end
  end.

(** [uploadOptions.array(field, limit)]: [req.files], which multer sets to
    an array as soon as the request is multipart, and leaves [undefined]
    otherwise. *)
Definition upload_array (field : string) (limit : nat) (f : form) (w : world)
  : uploaded (option (list string)) * world :=
  match f with
  | NotMultipart => (Next None, w)
  | Multipart parts =>
      match store_parts field limit parts w with
      | (Some l, w1) => (Next (Some l), w1)
      | (None, w1) => (UploadError, w1)
      end
  end.

(** Express's answer to an error passed on by a middleware. *)
Definition default_error : res := send JErrorPage (status 500 res0).

(* ===================================================================== *)
(** ** routes/products.js: the handlers                                   *)
(* ===================================================================== *)

Record products_req := {
  protocol : string;                    (* req.protocol *)
  host : string;                        (* req.get("host") *)
  upload_form : form;
  body_name : option string;
  body_description : option string;
  body_detailDescription : option string;
  body_price : number;
  body_stock : number;
}.

Definition basePath (req : products_req) : string :=
  protocol req +:+ "://" +:+ host req +:+ "/public/uploads/".

(** [router.get("/")] of products *)
Definition get_products (w : world) : res * world :=
  let '(o, w1) := draw w in
  match find (Products (db w1)) o with
  | Thrown =>
      (* the [catch] callback answers and returns [res], which is truthy *)
      let r := send (message false "Internal Server Error") (status 400 res0) in
      (send JRes r, w1)
  | Null =>
      let r := send (JEnvelope false "error" "Products not found")
                 (status 404 res0) in
      (send JNull r, w1)
  | Value productList => (send (JProducts productList) res0, w1)
  end.

(** [router.get("/:id")] of products *)
Definition get_product (id : oid) (w : world) : res * world :=
  let '(o, w1) := draw w in
  match findById (Products (db w1)) id o with
  | Thrown =>
      let r := send (message false "Internal Server Error") (status 400 res0) in
      (send JRes r, w1)
  | Null =>
      (send (message false "Product with given ID is not found")
         (status 404 res0), w1)
  | Value product => (send (JProduct id product) res0, w1)
  end.

(** The handler of [router.post("/")] of products, given [req.file]. *)
Definition create_product (req : products_req) (file : option string)
    (w : world) : res * world :=
  match file with
  | None =>
      (send (message false "Image file is not presented") (status 400 res0), w)
  | Some fileName =>
      let '(id, w1) := new_oid w in
      let product :=
        {| Product.name := body_name req;
           Product.description := body_description req;
           Product.detailDescription := body_detailDescription req;
           Product.image := basePath req +:+ fileName;
           Product.images := [];
           Product.price := body_price req;
           Product.stock := body_stock req |} in
      let '(o, w2) := draw w1 in
      let '(r, coll) := save (Products (db w2)) id product o in
      let w3 := set_db (set_Products coll) w2 in
      match r with
      | Thrown =>
          let r := send (message false "Internal Server Error")
                     (status 500 res0) in
          (send JRes r, w3)
      | Null =>
          (send (message false "Failed to create product") (status 404 res0),
           w3)
      | Value product => (send (JProduct id product) res0, w3)
      end
  end.

(** [router.post("/", uploadOptions.single("image"), ...)] *)
Definition post_products (req : products_req) (w : world) : res * world :=
  match upload_single "image" (upload_form req) w with
  | (Next file, w1) => create_product req file w1
  | (UploadError, w1) => (default_error, w1)
  end.

(** The handler of [router.put("/gallery-images/:id")], given [req.files]. *)
Definition replace_gallery (req : products_req) (id : oid)
    (files : option (list string)) (w : world) : res * world :=
  match files with
  | None =>
      (send (message false "Image file is not presented") (status 400 res0), w)
  | Some files =>
      let imagesPaths := map (λ filename, basePath req +:+ filename) files in
      let '(o, w1) := draw w in
      let '(r, coll) :=
        findByIdAndUpdate (Products (db w1)) id
          (Product.set_images imagesPaths) o in
      let w2 := set_db (set_Products coll) w1 in
      match r with
      | Thrown =>
          let r := send (message false "Internal Server Error")
                     (status 400 res0) in
          (send JRes r, w2)
      | Null =>
          (send (message false "Product with given ID is not found!")
             (status 404 res0), w2)
      | Value product => (send (JProduct id product) res0, w2)
      end
  end.

(** [router.put("/gallery-images/:id", uploadOptions.array("images", 10), ...)] *)
Definition put_gallery_images (req : products_req) (id : oid) (w : world)
  : res * world :=
  match upload_array "images" 10 (upload_form req) w with
  | (Next files, w1) => replace_gallery req id files w1
  | (UploadError, w1) => (default_error, w1)
  end.

(* ===================================================================== *)
(** ** routes/users.js                                                    *)
(* ===================================================================== *)

Record users_body := {
  body_uname : option string;           (* req.body.name *)
  body_email : option string;
  body_password : option string;
  body_isAdmin : option bool;
}.

Definition internal_error : res :=
  send (message false "Internal Server Error!") (status 500 res0).

(** [router.get("/")] of users *)
Definition get_users (w : world) : res * world :=
  let '(o, w1) := draw w in
  match find (Users (db w1)) o with
  | Thrown =>
      let r := send (message false "Internal Server Error") (status 400 res0) in
      (send JRes r, w1)
  | Null =>
      let r := send (JEnvelope false "error" "User not found")
                 (status 404 res0) in
      (send JNull r, w1)
  | Value userList => (send (JUsers userList) res0, w1)
  end.

(** [router.get("/:id")] of users *)
Definition get_user (id : oid) (w : world) : res * world :=
  let '(o, w1) := draw w in
  match findById (Users (db w1)) id o with
  | Thrown =>
      let r := send (message false "Internal Server Error") (status 400 res0) in
      (send JRes r, w1)
  | Null =>
      (send (message false "User with given ID is not found")
         (status 404 res0), w1)
  | Value user => (send (JUser id user) res0, w1)
  end.

(** [router.post("/")] of users *)
Definition post_users (req : users_body) (w : world) : res * world :=
  let '(seed, w1) := draw_entropy w in
  match bcrypt_hash (body_password req) 11 seed with
  | None => (internal_error, w1)
  | Some hashedPassword =>
      let '(id, w2) := new_oid w1 in
      let user :=
        {| User.name := body_uname req;
           User.email := body_email req;
           User.password := hashedPassword;
           User.isAdmin := body_isAdmin req |} in
      let '(o, w3) := draw w2 in
      let '(r, coll) := save (Users (db w3)) id user o in
      let w4 := set_db (set_Users coll) w3 in
      match r with
      | Thrown => (internal_error, w4)
      | Null =>
          (send (message false "Failed to create user!") (status 400 res0), w4)
      | Value user => (send (JUser id user) res0, w4)
      end
  end.

(** [router.put("/:id")] of users *)
Definition put_user (id : oid) (req : users_body) (w : world) : res * world :=
  let '(seed, w1) := draw_entropy w in
  match bcrypt_hash (body_password req) 11 seed with
  | None => (internal_error, w1)
  | Some hashedPassword =>
      let fields :=
        {| User.name := body_uname req;
           User.email := body_email req;
           User.password := hashedPassword;
           User.isAdmin := body_isAdmin req |} in
      let '(o, w2) := draw w1 in
      let '(r, coll) :=
        findByIdAndUpdate (Users (db w2)) id (λ _, fields) o in
      let w3 := set_db (set_Users coll) w2 in
      match r with
      | Thrown => (internal_error, w3)
      | Null =>
          (send (message false "User with given ID is not found!")
             (status 404 res0), w3)
      | Value user => (send (JUser id user) res0, w3)
      end
  end.

End Model.

(* ===================================================================== *)
(** ** Conditions on the world                                            *)
(* ===================================================================== *)

Section Conditions.
Context {N : JsNumber} {B : Bcrypt}.

(** No storage call to come fails. *)
Definition calm (w : world) : Prop := Forall (λ o, o = Fulfil) (faults w).

(** Every id of the collection was handed out before [n]. *)
Definition below {A : Type} (n : oid) (coll : gmap oid A) : Prop :=
  ∀ i, is_Some (coll !! i) → i < n.

(** The ObjectIds still to be generated are not in use. *)
Definition fresh_oids (w : world) : Prop :=
  below (next_oid w) (Users (db w)) ∧ below (next_oid w) (Products (db w)) ∧
  below (next_oid w) (OrderItems (db w)) ∧ below (next_oid w) (Orders (db w)).

(** The documents [items] under consecutive ids from [n] on. *)
Fixpoint store_items {A : Type} (n : oid) (items : list A) (coll : gmap oid A)
  : gmap oid A :=
  match items with
  | [] => coll
  | d :: rest => store_items (S n) rest (<[n := d]> coll)
  end.

(** The world once [k] storage calls on OrderItems have gone through. *)
Definition after_calls (k : nat) (ids : nat) (coll : gmap oid OrderItem.doc)
    (w : world) : world :=
  {| db := set_OrderItems coll (db w); next_oid := next_oid w + ids;
     faults := drop k (faults w); entropy := entropy w;
     in_flight := in_flight w; clock := clock w |}.

(** The world once [k] further storage calls have been answered. *)
Definition skip (k : nat) (w : world) : world :=
  {| db := db w; next_oid := next_oid w; faults := drop k (faults w);
     entropy := entropy w; in_flight := in_flight w; clock := clock w |}.

(** The order item [it] names the stored product [p]. *)
Definition refers (s : store) (it : OrderItem.doc) (p : Product.doc) : Prop :=
  ∃ pid, OrderItem.product it = Some pid ∧ Products s !! pid = Some p.

(** The request carries no file part. *)
Definition nothing_attached (f : form) : Prop :=
  f = NotMultipart ∨ f = Multipart [].

(** What a client of bcryptjs counts on: every string is hashed, the hash
    verifies against the string, and it is not the string. *)
Definition bcrypt_contract : Prop :=
  (∀ s rounds seed, is_Some (bcrypt_hash (Some s) rounds seed))
  ∧ (∀ s rounds seed h,
       bcrypt_hash (Some s) rounds seed = Some h → bcrypt_compare s h = true)
  ∧ (∀ s rounds seed h, bcrypt_hash (Some s) rounds seed = Some h → h ≠ s).

(** The [password] fields a body carries. *)
Definition passwords_in (b : body) : list string :=
  match b with
  | JUser _ u => [User.password u]
  | JUsers l => (λ e, User.password e.2) <$> l
  | _ => []
  end.

(** The document a user request writes, given the hash. *)
Definition user_fields (req : users_body) (hashedPassword : string)
  : User.doc :=
  {| User.name := body_uname req; User.email := body_email req;
     User.password := hashedPassword; User.isAdmin := body_isAdmin req |}.

(** The ids of the saves that went through. *)
Definition created (saved : list (awaited oid)) : list oid :=
  omap (λ r, match r with Value i => Some i | _ => None end) saved.

(** Price times quantity of one line. *)
Definition line_total (it : OrderItem.doc) (p : Product.doc) : number :=
  jmul (Product.price p) (OrderItem.quantity it).

End Conditions.

(* ===================================================================== *)
(** ** A platform to run the handlers on                                  *)
(* ===================================================================== *)

(** Integer prices and quantities. *)
Definition Z_number : JsNumber :=
  {| number := Z; jzero := 0%Z; jadd := Z.add; jmul := Z.mul |}.

(** JavaScript's own numbers: IEEE 754 doubles. *)
Definition float_number : JsNumber :=
  {| number := float; jzero := 0%float; jadd := PrimFloat.add;
     jmul := PrimFloat.mul |}.

(** A stand-in for bcryptjs that has its interface and nothing of its
    strength: strings only, and the hash is the tagged password. *)
Definition tag_bcrypt : Bcrypt :=
  {| bcrypt_hash s rounds seed :=
       match s with
       | Some s => Some (String "$"%char s)
       | None => None
       end;
     bcrypt_compare s h := String.eqb h (String "$"%char s) |}.

(* ===================================================================== *)
(** ** Facts about the world                                              *)
(* ===================================================================== *)

(** A shop with one product at 100, an order line of two of them, and the
    same shop after that line was ordered by user 7. *)
Definition shirt : @Product.doc Z_number :=
  @Product.Build_doc Z_number (Some "Shirt") (Some "d") None
    "http://localhost:3000/public/uploads/shirt.png-1.png"
    ["http://localhost:3000/public/uploads/old.png-0.png"] 100%Z 5%Z.

Definition two_shirts : @OrderItem.doc Z_number :=
  @OrderItem.Build_doc Z_number 2%Z (Some 0).

Definition shop_with (fs : list outcome) (items : gmap oid OrderItem.doc)
    (orders : gmap oid Order.doc) (users : gmap oid User.doc) (n : oid)
  : @world Z_number :=
  {| db := {| Users := users; Products := {[0 := shirt]};
              OrderItems := items; Orders := orders |};
     next_oid := n; faults := fs; entropy := 0; in_flight := []; clock := 0 |}.

Definition shop : @world Z_number := shop_with [] ∅ ∅ ∅ 1.

Definition shirt_order : @Order.doc Z_number :=
  @Order.Build_doc Z_number [1] 200%Z (Some 7).

Definition shop_ordered (fs : list outcome) : @world Z_number :=
  shop_with fs {[1 := two_shirts]} {[2 := shirt_order]} ∅ 3.

(** A shop with prices in doubles, and a line of one piece of a product. *)
Definition priced (x : float) : @Product.doc float_number :=
  @Product.Build_doc float_number None None None "" [] x 0%float.

Definition one_of (pid : oid) : @OrderItem.doc float_number :=
  @OrderItem.Build_doc float_number 1%float (Some pid).

Definition float_shop : @world float_number :=
  {| db := {| Users := ∅;
              Products := {[0 := priced 1%float;
                            1 := priced 0x1p+53%float;
                            2 := priced 1%float]};
              OrderItems := ∅; Orders := ∅ |};
     next_oid := 3; faults := []; entropy := 0; in_flight := []; clock := 0 |}.

(** A user of the shop, and requests on users and on the gallery. *)
Definition ragil : User.doc :=
  {| User.name := Some "Muhammad Ragil"; User.email := Some "mragil@gil.com";
     User.password := "$thisispassword"; User.isAdmin := Some true |}.

Definition shop_of_ragil : @world Z_number := shop_with [] ∅ ∅ {[4 := ragil]} 5.

Definition new_password (password : option string) : users_body :=
  {| body_uname := Some "Ragil"; body_email := None;
     body_password := password; body_isAdmin := Some false |}.

Definition gallery_req (f : form) : @products_req Z_number :=
  @Build_products_req Z_number "http" "localhost:3000" f None None None
    0%Z 0%Z.

Definition front_png : upload :=
  {| fieldname := "images"; originalname := "front view.png";
     mimetype := "image/png" |}.

(* ===================================================================== *)
(** ** The rest of routes/users.js, and what the statements below need    *)
(* ===================================================================== *)

Section Further.
Context {N : JsNumber} {B : Bcrypt}.

(** [router.delete("/:id")] of users.  [err] is the reason of a rejection as
    [res.json] renders it.  The [catch] callback answers 400 and returns
    [res], which is truthy: the handler goes on to the 200 as well. *)
Definition delete_user (err : string) (id : oid) (w : world) : res * world :=
  let '(o, w1) := draw w in
  let '(r, coll) := findByIdAndRemove (Users (db w1)) id o in
  let w2 := set_db (set_Users coll) w1 in
  match r with
  | Thrown =>
      let r := send (JEnvelope false "error" err) (status 400 res0) in
      (send (message true "User successfully deleted!") (status 200 r), w2)
  | Null => (send (message false "User not found!") (status 404 res0), w2)
  | Value deletedUser =>
      (send (message true "User successfully deleted!") (status 200 res0), w2)
  end.

(** Whether a string holds a space. *)
Fixpoint has_space (s : string) : bool :=
  match s with
  | EmptyString => false
  | String c rest => Ascii.eqb c " "%char || has_space rest
  end.

(** The three types the map has as its own keys. *)
Definition own_type (mimetype : string) : Prop :=
  mimetype ∈ ["image/png"; "image/jpeg"; "image/jpg"].

(** The names the map only inherits. *)
Definition inherited_type (mimetype : string) : Prop :=
  mimetype = "__proto__" ∨ mimetype ∈ Object_prototype_functions.*1.


(** A part multer lets through for [field]: it comes under that field name
    and [storage.destination] finds its type in the map. *)
Definition accepted (field : string) (file : upload) : Prop :=
  fieldname file = field ∧ is_Some (FILE_TYPE_MAP (mimetype file)).

(** The file names [storage.filename] gives to parts stored one after the
    other, the first at time [now]. *)
Fixpoint stored_names (now : nat) (parts : list upload) : list string :=
  match parts with
  | [] => []
  | file :: rest =>
      match FILE_TYPE_MAP (mimetype file) with
      | Some extension =>
          storage_filename file now extension :: stored_names (S now) rest
      | None => []
      end
  end.

(** The world [k] readings of the clock later. *)
Definition later (k : nat) (w : world) : world :=
  {| db := db w; next_oid := next_oid w; faults := faults w;
     entropy := entropy w; in_flight := in_flight w; clock := clock w + k |}.

(** The product an order line names, if it is stored. *)
Definition named_product (s : store) (it : OrderItem.doc)
  : option Product.doc :=
  match OrderItem.product it with
  | Some pid => Products s !! pid
  | None => None
  end.

(** The answer is a 200. *)
Definition answers_200 (r : res) : Prop :=
  ∃ b, on_wire r = Some (200, b).

End Further.

(** The product creation of the shop: a shirt at 1000 with one PNG. *)
Definition shirt_png : upload :=
  {| fieldname := "image"; originalname := "my shirt.png";
     mimetype := "image/png" |}.

Definition shirt_req (f : form) : @products_req Z_number :=
  @Build_products_req Z_number "http" "localhost:3000" f (Some "Shirt")
    (Some "d") None 1000%Z 5%Z.

(** Projections out of the worlds the handlers build, and nothing else. *)
Ltac world_simpl :=
  cbn [db next_oid faults entropy in_flight clock
       Users Products OrderItems Orders
       set_db set_Users set_Products set_OrderItems set_Orders
       new_oid draw draw_entropy Date_now issue fst snd].

Tactic Notation "world_simpl" "in" hyp(H) :=
  cbn [db next_oid faults entropy in_flight clock
       Users Products OrderItems Orders
       set_db set_Users set_Products set_OrderItems set_Orders
       new_oid draw draw_entropy Date_now issue fst snd] in H.

Section WorldFacts.
Context {N : JsNumber} {B : Bcrypt}.

Lemma calm_hd w : calm w → hd Fulfil (faults w) = Fulfil.
Proof.
  unfold calm. destruct (faults w) as [|o l]; [done|].
  intros H. by apply Forall_cons_1 in H as [-> _].
Qed.

Lemma drop_tl {A} k (l : list A) : drop k (tl l) = drop (S k) l.
Proof. destruct l; simpl; by rewrite ?drop_nil. Qed.

Lemma below_insert {A} n (d : A) coll :
  below n coll → below (S n) (<[n := d]> coll).
Proof.
  intros H i. rewrite lookup_insert. case_decide; [lia|].
  intros Hi. apply H in Hi. lia.
Qed.

Lemma below_fresh {A} n m (coll : gmap oid A) :
  below n coll → n ≤ m → coll !! m = None.
Proof.
  intros H Hm. destruct (coll !! m) eqn:E; [|done].
  assert (m < n) by (apply H; eauto). lia.
Qed.

Lemma below_mono {A} n m (coll : gmap oid A) :
  below n coll → n ≤ m → below m coll.
Proof. intros H Hm i Hi. apply H in Hi. lia. Qed.

Lemma store_items_lookup_lt {A} (items : list A) : ∀ n coll i,
  i < n → store_items n items coll !! i = coll !! i.
Proof.
  induction items as [|d rest IH]; intros n coll i Hi; simpl; [done|].
  rewrite IH by lia. by rewrite lookup_insert_ne by lia.
Qed.

Lemma store_items_lookup {A} (items : list A) : ∀ n coll k d,
  items !! k = Some d → store_items n items coll !! (n + k) = Some d.
Proof.
  induction items as [|d0 rest IH]; intros n coll k d Hk; [done|].
  destruct k as [|k]; simpl in *.
  - injection Hk as ->. rewrite store_items_lookup_lt by lia.
    rewrite Nat.add_0_r. apply lookup_insert_eq.
  - replace (n + S k) with (S n + k) by lia. by apply IH.
Qed.

Lemma store_items_lookup_ge {A} (items : list A) : ∀ n coll i,
  n + length items ≤ i → store_items n items coll !! i = coll !! i.
Proof.
  induction items as [|d rest IH]; intros n coll i Hi; simpl in *; [done|].
  rewrite IH by lia. by rewrite lookup_insert_ne by lia.
Qed.

Lemma store_items_dom {A} (items : list A) : ∀ n (coll : gmap oid A),
  dom (store_items n items coll)
  = dom coll ∪ list_to_set (seq n (length items)).
Proof.
  induction items as [|d rest IH]; intros n coll; simpl.
  - by rewrite (right_id_L ∅ (∪)).
  - rewrite IH, dom_insert_L.
    by rewrite (comm_L (∪) {[n]}), <- (assoc_L (∪)).
Qed.

Lemma store_items_size {A} (items : list A) : ∀ n (coll : gmap oid A),
  below n coll → size (store_items n items coll) = size coll + length items.
Proof.
  induction items as [|d rest IH]; intros n coll Hb; simpl; [lia|].
  rewrite IH by by apply below_insert.
  rewrite map_size_insert_None by by eapply below_fresh. lia.
Qed.

Lemma below_store_items {A} (items : list A) : ∀ n (coll : gmap oid A),
  below n coll → below (n + length items) (store_items n items coll).
Proof.
  induction items as [|d rest IH]; intros n coll Hb; simpl.
  - by rewrite Nat.add_0_r.
  - replace (n + S (length rest)) with (S n + length rest) by lia.
    apply IH. by apply below_insert.
Qed.

End WorldFacts.

(* ===================================================================== *)
(** ** POST /orders                                                       *)
(* ===================================================================== *)

Section PostOrders.
Context {N : JsNumber} {B : Bcrypt}.

Lemma after_calls_0 coll w :
  coll = OrderItems (db w) → after_calls 0 0 coll w = w.
Proof.
  intros ->. destruct w as [[] ?]. unfold after_calls; simpl.
  by rewrite Nat.add_0_r.
Qed.

(** With no failure, the saves store the items under the next ids. *)
Lemma save_order_items_calm items : ∀ w,
  calm w → below (next_oid w) (OrderItems (db w)) →
  save_order_items items w
  = (Value <$> seq (next_oid w) (length items),
     after_calls (length items) (length items)
       (store_items (next_oid w) items (OrderItems (db w))) w).
Proof.
  induction items as [|it rest IH]; intros w Hc Hb.
  - simpl. by rewrite after_calls_0.
  - cbn [save_order_items new_oid draw fst snd next_oid faults db].
    rewrite (calm_hd w Hc). unfold save.
    rewrite (below_fresh _ _ _ Hb (Nat.le_refl _)).
    rewrite IH; cbn [db set_db set_OrderItems OrderItems next_oid faults].
    + f_equal. destruct it. simpl. unfold after_calls. simpl.
      f_equal; [lia|apply drop_tl].
    + unfold calm in *. simpl. destruct (faults w); [done|].
      by apply Forall_cons_1 in Hc as [_ ?].
    + destruct it. by apply below_insert.
Qed.

Lemma all_values {A} (l : list A) : all (Value <$> l) = Value l.
Proof.
  induction l as [|a l IH]; [done|].
  rewrite fmap_cons. cbn [all]. by rewrite IH.
Qed.

Lemma calm_skip k w : calm w → calm (skip k w).
Proof. unfold calm; simpl. apply Forall_drop. Qed.

Lemma skip_skip j k w : skip j (skip k w) = skip (k + j) w.
Proof. unfold skip; simpl. by rewrite drop_drop. Qed.

(** With no failure, every line is read back and priced. *)
Lemma total_prices_calm ids : ∀ items prods w,
  calm w →
  Forall2 (λ id it, OrderItems (db w) !! id = Some it) ids items →
  Forall2 (refers (db w)) items prods →
  total_prices ids w
  = (Value <$> zip_with line_total items prods, skip (length ids) w).
Proof.
  induction ids as [|id ids IH]; intros items prods w Hc Hi Hp.
  - apply Forall2_nil_inv_l in Hi as ->.
    apply Forall2_nil_inv_l in Hp as ->. simpl.
    unfold skip. rewrite drop_0. by destruct w.
  - apply Forall2_cons_inv_l in Hi as (it & items' & Hit & Hi & ->).
    apply Forall2_cons_inv_l in Hp as (p & prods' & (pid & Hpid & Hp0) & Hp & ->).
    cbn [total_prices draw]. rewrite (calm_hd w Hc).
    rewrite (IH items' prods'); [|by apply (calm_skip 1 w)|done|done].
    cbn [db]. unfold item_total, findById. rewrite Hit, Hpid, Hp0.
    simpl. f_equal. unfold skip; simpl. by rewrite drop_tl.
Qed.

Lemma stored_items_read {A} (items : list A) n coll :
  Forall2 (λ id it, store_items n items coll !! id = Some it)
    (seq n (length items)) items.
Proof.
  apply Forall2_same_length_lookup_2; [by rewrite length_seq|].
  intros k id it [-> _]%lookup_seq Hit. by apply store_items_lookup.
Qed.

(** C1.  An order of [N] items, each naming a stored product, with no
    storage failure on the way: the answer is the created Order, whose
    [totalPrice] is the sum, from [0] and in the order of the items, of the
    product's price times the item's quantity, and whose [orderItems] are the
    ids of [N] new OrderItem documents, one per item and in their order;
    nothing else is added to the OrderItems. *)
Theorem post_orders_total items prods usr w :
  calm w → fresh_oids w → Forall2 (refers (db w)) items prods →
  let n := next_oid w in
  let ids := seq n (length items) in
  let order :=
    {| Order.orderItems := ids;
       Order.totalPrice := fold_left jadd (zip_with line_total items prods) jzero;
       Order.user := usr |} in
  ∃ w',
    post_orders {| body_orderItems := Some items; body_user := usr |} w
    = (send (JOrder (n + length items) order) res0, w')
    ∧ Orders (db w') = <[n + length items := order]> (Orders (db w))
    ∧ (∀ k it, items !! k = Some it → OrderItems (db w') !! (n + k) = Some it)
    ∧ dom (OrderItems (db w')) = dom (OrderItems (db w)) ∪ list_to_set ids
    ∧ size (OrderItems (db w')) = size (OrderItems (db w)) + length items
    ∧ Products (db w') = Products (db w).
Proof.
  intros Hc (_ & _ & Hbi & Hbo) Hp n ids order.
  unfold post_orders, post_orders_try. cbn [body_orderItems body_user].
  rewrite (save_order_items_calm items w Hc Hbi), all_values.
  set (w1 := after_calls _ _ _ w).
  assert (calm w1) as Hc1 by (unfold calm; simpl; by apply Forall_drop).
  rewrite (total_prices_calm _ items prods w1 Hc1);
    [|apply stored_items_read|exact Hp].
  rewrite all_values. world_simpl.
  rewrite (calm_hd _ (calm_skip _ _ Hc1)). unfold save.
  cbn [skip db next_oid w1 after_calls set_OrderItems Orders].
  rewrite length_seq.
  rewrite (below_fresh _ (next_oid w + length items) _ Hbo) by lia.
  eexists. split; [reflexivity|]. cbn.
  split; [done|]. split; [intros k it; apply store_items_lookup|].
  split; [apply store_items_dom|]. split; [by apply store_items_size|done].
Qed.

End PostOrders.

Section PostOrdersFailure.
Context {N : JsNumber} {B : Bcrypt}.

(** What the saves of the first [Promise.all] leave behind, whatever the
    driver does with each of them. *)
Lemma save_order_items_effect items : ∀ w saved w1,
  below (next_oid w) (OrderItems (db w)) →
  save_order_items items w = (saved, w1) →
  below (next_oid w1) (OrderItems (db w1))
  ∧ next_oid w ≤ next_oid w1
  ∧ (∀ k i, saved !! k = Some (Value i) →
       next_oid w ≤ i ∧
       ∃ it, items !! k = Some it ∧ OrderItems (db w1) !! i = Some it)
  ∧ (∀ i, i < next_oid w → OrderItems (db w1) !! i = OrderItems (db w) !! i)
  ∧ size (OrderItems (db w1))
    = size (OrderItems (db w)) + length (created saved).
Proof.
  induction items as [|it rest IH]; intros w saved w1 Hb Hrun.
  - injection Hrun as <- <-. repeat split; try done; simpl; lia.
  - cbn [save_order_items] in Hrun. world_simpl in Hrun.
    destruct it as [q p]. cbn [OrderItem.quantity OrderItem.product] in Hrun.
    set (d := {| OrderItem.quantity := q; OrderItem.product := p |}) in *.
    pose proof (below_fresh _ _ _ Hb (Nat.le_refl _)) as Hnew.
    destruct (save _ _ d _) as [r coll] eqn:Hsave.
    destruct (save_order_items rest _) as [rs w4] eqn:Hrest.
    injection Hrun as <- <-.
    assert (below (S (next_oid w)) coll ∧
            (∀ i, i < next_oid w → coll !! i = OrderItems (db w) !! i) ∧
            match r with
            | Value _ => coll !! next_oid w = Some d ∧
                         size coll = S (size (OrderItems (db w)))
            | _ => size coll = size (OrderItems (db w))
            end) as (Hb' & Hold & Hr).
    { unfold save in Hsave. rewrite Hnew in Hsave.
      destruct (hd Fulfil (faults w)); injection Hsave as <- <-.
      - split; [by apply below_insert|]. split.
        + intros i Hi. by rewrite lookup_insert_ne by lia.
        + split; [apply lookup_insert_eq|by apply map_size_insert_None].
      - split; [by apply (below_mono (next_oid w)); [|lia]|]. done.
      - split; [by apply (below_mono (next_oid w)); [|lia]|]. done. }
    apply IH in Hrest as (Hb4 & Hle & Hnew4 & Hold4 & Hsize4);
      world_simpl; [|done]. world_simpl in Hb4. world_simpl in Hle.
    world_simpl in Hnew4. world_simpl in Hold4. world_simpl in Hsize4.
    split; [done|]. split; [lia|]. split; [|split].
    + intros [|k] i Hk; simpl in Hk.
      * destruct r; try done. injection Hk as <-.
        split; [done|]. exists d. split; [done|].
        rewrite Hold4 by lia. apply Hr.
      * apply Hnew4 in Hk as (? & it & ? & ?). split; [lia|]. by exists it.
    + intros i Hi. rewrite Hold4 by lia. by apply Hold.
    + rewrite Hsize4. unfold created.
      destruct r as [?| |]; [destruct Hr as [_ Hr]| |]; cbn; lia.
Qed.



End PostOrdersFailure.

(** The run of C1 on the shop: two shirts at 100 make an order of 200 with
    one new OrderItem. *)
Lemma post_orders_total_witness :
  ∃ w',
    post_orders {| body_orderItems := Some [two_shirts]; body_user := Some 7 |}
      shop
    = (send (JOrder 2 shirt_order) res0, w')
    ∧ OrderItems (db w') !! 1 = Some two_shirts
    ∧ size (OrderItems (db w')) = 1.
Proof.
  destruct (post_orders_total [two_shirts] [shirt] (Some 7) shop)
    as (w' & Hres & _ & Hitem & _ & Hsize & _).
  - constructor.
  - repeat split; intros i [x Hx]; simpl in *.
    + by rewrite lookup_empty in Hx.
    + destruct (decide (i = 0)) as [->|]; [lia|].
      by rewrite lookup_singleton_ne in Hx.
    + by rewrite lookup_empty in Hx.
    + by rewrite lookup_empty in Hx.
  - repeat constructor. by exists 0.
  - exists w'. split; [exact Hres|]. split; [exact (Hitem 0 _ eq_refl)|].
    exact Hsize.
Defined.

Section PostOrdersEmpty.
Context {N : JsNumber} {B : Bcrypt}.

(** C9.  An order with an empty list of items, when the save of the Order
    goes through: the answer is 200 with the created Order, which has no
    item and a [totalPrice] of [0], and the OrderItems are what they were. *)
Theorem post_orders_empty usr w :
  hd Fulfil (faults w) = Fulfil → below (next_oid w) (Orders (db w)) →
  let order :=
    {| Order.orderItems := []; Order.totalPrice := jzero;
       Order.user := usr |} in
  ∃ r w',
    post_orders {| body_orderItems := Some []; body_user := usr |} w = (r, w')
    ∧ sent r = [(200, JOrder (next_oid w) order)]
    ∧ OrderItems (db w') = OrderItems (db w)
    ∧ Orders (db w') = <[next_oid w := order]> (Orders (db w)).
Proof.
  intros Hok Hb order.
  unfold post_orders, post_orders_try.
  cbn [body_orderItems body_user save_order_items all total_prices].
  world_simpl. rewrite Hok. unfold save.
  rewrite (below_fresh _ _ _ Hb (Nat.le_refl _)).
  eexists _, _. split; [reflexivity|]. by world_simpl.
Qed.

End PostOrdersEmpty.

(** The run of C9 on the shop. *)
Lemma post_orders_empty_witness :
  ∃ r w',
    post_orders {| body_orderItems := Some []; body_user := Some 7 |} shop
    = (r, w')
    ∧ sent r = [(200, JOrder 1 (@Order.Build_doc Z_number [] 0%Z (Some 7)))]
    ∧ OrderItems (db w') = ∅.
Proof.
  destruct (post_orders_empty (Some 7) shop) as (r & w' & Hrun & Hr & Hi & _).
  - reflexivity.
  - intros i [x Hx]. simpl in Hx. by rewrite lookup_empty in Hx.
  - exists r, w'. split; [exact Hrun|]. split; [exact Hr|exact Hi].
Defined.

(* ===================================================================== *)
(** ** DELETE /orders/:id                                                 *)
(* ===================================================================== *)

Section DeleteOrder.
Context {N : JsNumber} {B : Bcrypt}.

(** The answer to the removal of a stored order, and the world at that
    moment: the Order is gone, the removals of its items are in flight and
    the OrderItems are untouched. *)
Lemma delete_order_answer id order w :
  hd Fulfil (faults w) = Fulfil → Orders (db w) !! id = Some order →
  ∃ w',
    delete_order id w
    = (send (message true "Order successfully deleted!") (status 200 res0), w')
    ∧ Orders (db w') = delete id (Orders (db w))
    ∧ OrderItems (db w') = OrderItems (db w)
    ∧ in_flight w' = in_flight w ++ Order.orderItems order
    ∧ faults w' = tl (faults w).
Proof.
  intros Hok Ho. unfold delete_order. world_simpl.
  rewrite Hok. unfold findByIdAndRemove. rewrite Ho.
  eexists. split; [reflexivity|]. by world_simpl.
Qed.

(** A removal adds nothing. *)
Lemma run_removals_gone ids : ∀ w i,
  OrderItems (db w) !! i = None →
  OrderItems (db (run_removals ids w)) !! i = None.
Proof.
  induction ids as [|j ids IH]; intros w i Hi; [done|].
  cbn [run_removals]. world_simpl.
  destruct (findByIdAndRemove _ j _) as [r coll] eqn:Hrm.
  apply IH. world_simpl.
  unfold findByIdAndRemove in Hrm.
  destruct (hd Fulfil (faults w)), (OrderItems (db w) !! j);
    injection Hrm as <- <-; try done.
  rewrite lookup_delete. by case_decide.
Qed.

(** Removals that all go through remove every document they name. *)
Lemma run_removals_calm ids : ∀ w i,
  calm w → i ∈ ids → OrderItems (db (run_removals ids w)) !! i = None.
Proof.
  induction ids as [|j ids IH]; intros w i Hc Hi; [by apply elem_of_nil in Hi|].
  cbn [run_removals]. world_simpl. rewrite (calm_hd w Hc).
  destruct (findByIdAndRemove _ j _) as [r coll] eqn:Hrm.
  destruct (decide (i ∈ ids)) as [Hin|Hout].
  - apply IH; [|done]. unfold calm in *. simpl.
    destruct (faults w); [done|]. by apply Forall_cons_1 in Hc as [_ ?].
  - apply elem_of_cons in Hi as [->|?]; [|done].
    apply run_removals_gone. world_simpl.
    unfold findByIdAndRemove in Hrm.
    destruct (OrderItems (db w) !! j) eqn:Hj; injection Hrm as <- <-.
    + apply lookup_delete_eq.
    + done.
Qed.

(** Once the removals in flight have all gone through, no item of the
    removed order is left. *)
Lemma delete_order_settled id order w :
  calm w → Orders (db w) !! id = Some order →
  ∀ i, i ∈ Order.orderItems order →
    OrderItems (db (settle (delete_order id w).2)) !! i = None.
Proof.
  intros Hc Ho i Hi.
  destruct (delete_order_answer id order w (calm_hd w Hc) Ho)
    as (w' & -> & _ & _ & Hfl & Hf).
  cbn [snd]. unfold settle. apply run_removals_calm.
  - unfold calm in *. simpl. rewrite Hf.
    destruct (faults w); [done|]. by apply Forall_cons_1 in Hc as [_ ?].
  - rewrite Hfl. apply elem_of_app. by right.
Qed.

End DeleteOrder.

(** C4.  The removal of order 2 of the shop, whose one item is OrderItem 1:
    the handler answers 200 with the Order removed and OrderItem 1 still
    stored, its removal in flight; and when the driver then refuses that
    removal, the answer has been the same 200 and OrderItem 1 stays. *)
Theorem delete_order_leaves_items :
  (let '(r, w') := delete_order 2 (shop_ordered []) in
   sent r = [(200, message true "Order successfully deleted!")]
   ∧ Orders (db w') !! 2 = None
   ∧ OrderItems (db w') !! 1 = Some two_shirts
   ∧ in_flight w' = [1])
  ∧
  (let '(r, w') := delete_order 2 (shop_ordered [Fulfil; Reject]) in
   sent r = [(200, message true "Order successfully deleted!")]
   ∧ Orders (db (settle w')) !! 2 = None
   ∧ OrderItems (db (settle w')) !! 1 = Some two_shirts
   ∧ in_flight (settle w') = []).
Proof. split; vm_compute; repeat split; reflexivity. Qed.

(* ===================================================================== *)
(** ** Products                                                           *)
(* ===================================================================== *)

Section Products.
Context {N : JsNumber} {B : Bcrypt}.

(** C2.  A product creation that carries no file: the answer is the 400 of
    the handler and the world, the Products with it, is what it was. *)
Theorem post_products_without_image req w :
  nothing_attached (upload_form req) →
  ∃ r, post_products req w = (r, w)
       ∧ sent r = [(400, message false "Image file is not presented")].
Proof.
  intros [Hf|Hf]; unfold post_products, upload_single; rewrite Hf;
    eexists; (split; [reflexivity|done]).
Qed.

(** C8.  The list of products, by what the driver does with [find]: on a
    rejection the 400 with its fixed message goes on the wire (and [res]
    itself is then handed to [send]); on [null] the handler sends the 404
    envelope and then the [null] list as well; otherwise it sends the
    list. *)
Theorem get_products_outcomes w :
  let r := (get_products w).1 in
  match hd Fulfil (faults w) with
  | Reject =>
      on_wire r = Some (400, message false "Internal Server Error")
      ∧ sent r = [(400, message false "Internal Server Error"); (400, JRes)]
  | Nullish =>
      sent r = [(404, JEnvelope false "error" "Products not found");
                (404, JNull)]
  | Fulfil => sent r = [(200, JProducts (map_to_list (Products (db w))))]
  end.
Proof.
  unfold get_products. world_simpl. by destruct (hd Fulfil (faults w)).
Qed.

(** The gallery route on a request that is not multipart: 400, and nothing
    changes. *)
Lemma put_gallery_images_not_multipart req id w :
  upload_form req = NotMultipart →
  put_gallery_images req id w
  = (send (message false "Image file is not presented") (status 400 res0), w).
Proof. intros Hf. unfold put_gallery_images, upload_array. by rewrite Hf. Qed.

(** The gallery route once multer has stored the parts under [names]. *)
Lemma put_gallery_images_stored req id parts names w w1 :
  upload_form req = Multipart parts →
  store_parts "images" 10 parts w = (Some names, w1) →
  hd Fulfil (faults w1) = Fulfil →
  let urls := (λ filename, basePath req +:+ filename) <$> names in
  ∃ r w',
    put_gallery_images req id w = (r, w') ∧
    match Products (db w1) !! id with
    | Some p =>
        sent r = [(200, JProduct id (Product.set_images urls p))]
        ∧ Products (db w')
          = <[id := Product.set_images urls p]> (Products (db w1))
    | None =>
        sent r = [(404, message false "Product with given ID is not found!")]
        ∧ Products (db w') = Products (db w1)
    end.
Proof.
  intros Hf Hst Hok urls.
  unfold put_gallery_images, upload_array. rewrite Hf, Hst.
  unfold replace_gallery. world_simpl. rewrite Hok.
  unfold findByIdAndUpdate.
  destruct (Products (db w1) !! id); eexists _, _; by split.
Qed.

(** multer stores nothing for a form without parts and passes the empty
    array on. *)
Lemma store_parts_nil field limit w :
  store_parts field limit [] w = (Some [], w).
Proof. done. Qed.

End Products.

(** The run of C2 on the shop. *)
Lemma post_products_without_image_witness :
  ∃ r, post_products (gallery_req (Multipart [])) shop = (r, shop)
       ∧ sent r = [(400, message false "Image file is not presented")].
Proof.
  apply (post_products_without_image (gallery_req (Multipart [])) shop).
  right. reflexivity.
Defined.

(** C7.  The gallery of the shirt, which holds one image, and a multipart
    request without any file part: [req.files] is the empty array, the guard
    of the handler lets it through, and the answer is 200 with the gallery
    emptied in the store. *)
Theorem put_gallery_images_no_files :
  let '(r, w') := put_gallery_images (gallery_req (Multipart [])) 0 shop in
  Product.images shirt
  = ["http://localhost:3000/public/uploads/old.png-0.png"]
  ∧ sent r = [(200, JProduct 0 (Product.set_images [] shirt))]
  ∧ Products (db w') !! 0 = Some (Product.set_images [] shirt).
Proof. vm_compute. repeat split; reflexivity. Qed.

(** One file attached: the gallery is replaced by the one generated URL. *)
Example put_gallery_images_one_file :
  let '(r, w') :=
    put_gallery_images (gallery_req (Multipart [front_png])) 0 shop in
  let url := "http://localhost:3000/public/uploads/front-view.png-0.png" in
  sent r = [(200, JProduct 0 (Product.set_images [url] shirt))]
  ∧ Products (db w') !! 0 = Some (Product.set_images [url] shirt).
Proof. vm_compute. repeat split; reflexivity. Qed.

(* ===================================================================== *)
(** ** Users                                                              *)
(* ===================================================================== *)

Section Users.
Context {N : JsNumber} {B : Bcrypt}.

(** C3.  A user creation with a password [pw], on a bcrypt that keeps its
    contract, with no failure of the save: the stored password is the hash
    of [pw] at 11 rounds, which is not [pw] and against which [pw]
    verifies. *)
Theorem post_users_stores_hash req pw w :
  bcrypt_contract →
  body_password req = Some pw →
  hd Fulfil (faults w) = Fulfil → below (next_oid w) (Users (db w)) →
  ∃ h w',
    bcrypt_hash (Some pw) 11 (entropy w) = Some h
    ∧ post_users req w
      = (send (JUser (next_oid w) (user_fields req h)) res0, w')
    ∧ Users (db w') = <[next_oid w := user_fields req h]> (Users (db w))
    ∧ User.password (user_fields req h) = h
    ∧ h ≠ pw
    ∧ bcrypt_compare pw h = true.
Proof.
  intros (Hhash & Hcmp & Hne) Hpw Hok Hb.
  destruct (Hhash pw 11 (entropy w)) as [h Hh].
  exists h. unfold post_users. world_simpl. rewrite Hpw, Hh.
  world_simpl. rewrite Hok. unfold save.
  rewrite (below_fresh _ _ _ Hb (Nat.le_refl _)).
  eexists. split; [done|]. split; [reflexivity|]. world_simpl.
  split; [done|]. split; [done|]. split; [by eapply Hne|by eapply Hcmp].
Qed.

(** C5, amended.  A user update, when the driver carries out the call: the password of the
    request, whatever it is, is handed to bcrypt at 11 rounds.  Where bcrypt
    rejects, the answer is 500 and the Users are what they were.  Where it
    gives a hash, the four fields of the user with the given id are replaced
    by the name, the email and the flag of the request, absent or not, and
    by the hash; and the answer is 404 where no user has the id. *)
Theorem put_user_outcome id req w :
  hd Fulfil (faults w) = Fulfil →
  ∃ r w',
    put_user id req w = (r, w') ∧
    match bcrypt_hash (body_password req) 11 (entropy w) with
    | None =>
        sent r = [(500, message false "Internal Server Error!")]
        ∧ Users (db w') = Users (db w)
    | Some h =>
        match Users (db w) !! id with
        | Some _ =>
            sent r = [(200, JUser id (user_fields req h))]
            ∧ Users (db w') = <[id := user_fields req h]> (Users (db w))
        | None =>
            sent r = [(404, message false "User with given ID is not found!")]
            ∧ Users (db w') = Users (db w)
        end
    end.
Proof.
  intros Hok. unfold put_user. world_simpl.
  destruct (bcrypt_hash _ _ _) as [h|]; [|eexists _, _; by split].
  world_simpl. rewrite Hok. unfold findByIdAndUpdate.
  destruct (Users (db w) !! id); eexists _, _; by split.
Qed.

(** C10.  Reading a stored user, by id or in the list of all, when the
    driver carries out the call: the body on the wire is the stored document,
    respectively the list of all stored documents, and the stored password
    is among the passwords it carries. *)
Theorem users_read_exposes_password id u w :
  hd Fulfil (faults w) = Fulfil → Users (db w) !! id = Some u →
  ∃ one every,
    on_wire (get_user id w).1 = Some (200, one)
    ∧ on_wire (get_users w).1 = Some (200, every)
    ∧ one = JUser id u
    ∧ every = JUsers (map_to_list (Users (db w)))
    ∧ User.password u ∈ passwords_in one
    ∧ User.password u ∈ passwords_in every.
Proof.
  intros Hok Hu. unfold get_user, get_users, findById, find. world_simpl.
  rewrite Hok, Hu. eexists _, _. repeat split.
  - apply list_elem_of_singleton. done.
  - simpl. apply list_elem_of_fmap. exists (id, u).
    split; [done|]. by apply elem_of_map_to_list.
Qed.

End Users.

(** [tag_bcrypt] keeps the contract. *)
Lemma tag_bcrypt_contract : @bcrypt_contract tag_bcrypt.
Proof.
  split; [|split].
  - intros s rounds seed. by eexists.
  - intros s rounds seed h [= <-]. apply String.eqb_refl.
  - intros s rounds seed h [= <-].
    induction s as [|c s IH]; [done|]. intros [= <- E]. by apply IH.
Qed.

(** The run of C3 on the shop of Ragil. *)
Lemma post_users_stores_hash_witness :
  ∃ w',
    @post_users Z_number tag_bcrypt (new_password (Some "thisispassword"))
      shop_of_ragil
    = (send (JUser 5 (user_fields (new_password (Some "thisispassword"))
                        "$thisispassword")) res0, w')
    ∧ Users (db w') !! 5
      = Some (user_fields (new_password (Some "thisispassword"))
                "$thisispassword").
Proof.
  destruct (@post_users_stores_hash Z_number tag_bcrypt
              (new_password (Some "thisispassword")) "thisispassword"
              shop_of_ragil)
    as (h & w' & [= <-] & Hrun & Husers & _).
  - exact tag_bcrypt_contract.
  - reflexivity.
  - reflexivity.
  - intros i [x Hx]. simpl in Hx.
    destruct (decide (i = 4)) as [->|]; [simpl; lia|].
    by rewrite lookup_singleton_ne in Hx.
  - exists w'. split; [exact Hrun|]. rewrite Husers. apply lookup_insert_eq.
Defined.

(** The run of the user update on the shop of Ragil, with the empty
    password. *)
Lemma put_user_outcome_witness :
  ∃ r w',
    @put_user Z_number tag_bcrypt 4 (new_password (Some "")) shop_of_ragil
    = (r, w')
    ∧ sent r = [(200, JUser 4 (user_fields (new_password (Some "")) "$"))]
    ∧ Users (db w') !! 4 = Some (user_fields (new_password (Some "")) "$").
Proof.
  destruct (@put_user_outcome Z_number tag_bcrypt 4 (new_password (Some ""))
              shop_of_ragil eq_refl) as (r & w' & Hrun & Hr & Husers).
  exists r, w'. split; [exact Hrun|]. split; [exact Hr|].
  rewrite Husers. apply lookup_insert_eq.
Defined.

(** C5, as it is stated, fails where the password is [undefined]: bcryptjs rejects
    what is not a string, the [catch] answers 500, and Ragil keeps the four
    fields he had; with an id that no user has the answer is that 500 as
    well, not 404. *)
Lemma put_user_undefined_password :
  (let run :=
     @put_user Z_number tag_bcrypt 4 (new_password None) shop_of_ragil in
   sent run.1 = [(500, message false "Internal Server Error!")]
   ∧ Users (db run.2) !! 4 = Some ragil)
  ∧
  (let run :=
     @put_user Z_number tag_bcrypt 9 (new_password None) shop_of_ragil in
   Users (db shop_of_ragil) !! 9 = None
   ∧ sent run.1 = [(500, message false "Internal Server Error!")]).
Proof. split; vm_compute; repeat split; reflexivity. Qed.

(** The run of C10 on the shop of Ragil. *)
Lemma users_read_exposes_password_witness :
  on_wire (get_user 4 shop_of_ragil).1 = Some (200, JUser 4 ragil)
  ∧ on_wire (get_users shop_of_ragil).1 = Some (200, JUsers [(4, ragil)])
  ∧ "$thisispassword" ∈ @passwords_in Z_number (JUsers [(4, ragil)]).
Proof.
  destruct (users_read_exposes_password 4 ragil shop_of_ragil eq_refl eq_refl)
    as (one & every & H1 & H2 & -> & -> & _ & H3).
  split; [exact H1|]. split; [exact H2|exact H3].
Defined.

(** On doubles the order of the additions shows, and the total is the one of
    [reduce]: from [0], through the lines from the first to the last.  One,
    then [2^53], then one again make [2^53], each one being rounded away;
    with the two ones first they make [2^53 + 2]. *)
Example post_orders_adds_in_order :
  let req (l : list oid) :=
    {| body_orderItems := Some (one_of <$> l); body_user := None |} in
  (∃ o, sent (post_orders (req [0; 1; 2]) float_shop).1 = [(200, JOrder 6 o)]
        ∧ Order.totalPrice o = 0x1p+53%float)
  ∧ (∃ o, sent (post_orders (req [0; 2; 1]) float_shop).1 = [(200, JOrder 6 o)]
          ∧ Order.totalPrice o = 0x1.0000000000001p+53%float).
Proof. split; eexists; split; vm_compute; reflexivity. Qed.

(* ===================================================================== *)
(** ** The upload engine                                                  *)
(* ===================================================================== *)

Section Uploads.
Context {N : JsNumber} {B : Bcrypt}.

Lemma has_space_app a b : has_space (a +:+ b) = has_space a || has_space b.
Proof.
  induction a as [|c a IH]; simpl; [done|]. rewrite IH. apply orb_assoc.
Qed.

Lemma has_space_dashes s : has_space (dashes s) = false.
Proof.
  induction s as [|c s IH]; simpl; [done|]. rewrite IH, orb_false_r.
  destruct (Ascii.eqb c " ") eqn:E; [done|exact E].
Qed.

Lemma has_space_pretty_N_go x : ∀ s,
  has_space (pretty_N_go x s) = has_space s.
Proof.
  induction (N.lt_wf_0 x) as [x _ IH]; intros s.
  assert (x = 0 ∨ 0 < x)%N as [->|?] by lia.
  - by rewrite pretty_N_go_0.
  - rewrite pretty_N_go_step by done. rewrite IH by by apply N.div_lt.
    simpl. unfold pretty_N_char. by repeat case_match.
Qed.

Lemma has_space_pretty (n : nat) : has_space (pretty n) = false.
Proof.
  unfold pretty, pretty_nat, pretty, pretty_N.
  case_decide; [done|]. by rewrite has_space_pretty_N_go.
Qed.

Lemma FILE_TYPE_MAP_own mimetype :
  own_type mimetype →
  ∃ extension,
    FILE_TYPE_MAP mimetype = Some extension
    ∧ mimetype = "image/" +:+ extension
    ∧ has_space extension = false.
Proof.
  unfold own_type. rewrite !elem_of_cons, elem_of_nil.
  intros [->|[->|[->|[]]]]; eexists; by repeat split.
Qed.

(** X1.  A file of one of the three types the map has as its own keys never
    has a space in the name it is stored under: the spaces of the original
    name have become dashes, and the time and the extension, which is what
    follows [image/] in the type, have none. *)
Theorem storage_filename_spaceless file now :
  own_type (mimetype file) →
  ∃ extension,
    FILE_TYPE_MAP (mimetype file) = Some extension
    ∧ mimetype file = "image/" +:+ extension
    ∧ has_space (storage_filename file now extension) = false.
Proof.
  intros (extension & Hext & Htype & Hspace)%FILE_TYPE_MAP_own.
  exists extension. split; [done|]. split; [done|].
  unfold storage_filename.
  by rewrite !has_space_app, has_space_dashes, has_space_pretty, Hspace.
Qed.

(** X26.  The map is no closed list: a part whose type is a name that the
    object literal inherits is let through as well, and what the lookup
    gives, a function or the prototype, is printed as the extension of the
    stored file, spaces included. *)
Theorem inherited_types_pass file now :
  inherited_type (mimetype file) →
  ∃ extension,
    FILE_TYPE_MAP (mimetype file) = Some extension
    ∧ store_file file = (λ w, (Some (storage_filename file (clock w) extension),
                               (Date_now w).2))
    ∧ has_space (storage_filename file now extension) = true.
Proof.
  unfold inherited_type, store_file. intros [->|Hin].
  - eexists. split; [reflexivity|]. split; [done|].
    unfold storage_filename. rewrite !has_space_app. simpl.
    by rewrite !orb_true_r.
  - cbn in Hin. rewrite !elem_of_cons, elem_of_nil in Hin.
    destruct Hin as [->|[->|[->|[->|[->|[->|[->|[->|[->|[->|[->|[]]]]]]]]]]]];
      (eexists; split; [reflexivity|]; split; [done|];
       unfold storage_filename; rewrite !has_space_app; simpl;
       by rewrite !orb_true_r).
Qed.

Lemma store_parts_db field : ∀ parts limit w,
  db (store_parts field limit parts w).2 = db w
  ∧ next_oid (store_parts field limit parts w).2 = next_oid w
  ∧ faults (store_parts field limit parts w).2 = faults w
  ∧ in_flight (store_parts field limit parts w).2 = in_flight w
  ∧ entropy (store_parts field limit parts w).2 = entropy w.
Proof.
  induction parts as [|file rest IH]; intros limit w; [done|].
  cbn [store_parts]. destruct (String.eqb _ _); [|done].
  destruct limit as [|limit]; [done|].
  unfold store_file. destruct (FILE_TYPE_MAP _); [|done].
  world_simpl. specialize (IH limit (Date_now w).2).
  unfold Date_now in IH. cbn [snd] in IH.
  destruct (store_parts field limit rest _) as [[l|] w2]; exact IH.
Qed.

(** multer stores every part or none: it passes the request on exactly when
    the parts are no more than the limit and every one of them comes under
    the field of the route with a type of the map. *)
Lemma store_parts_accepts field : ∀ parts limit w,
  is_Some (store_parts field limit parts w).1
  ↔ length parts ≤ limit ∧ Forall (accepted field) parts.
Proof.
  induction parts as [|file rest IH]; intros limit w.
  - simpl. split; [intros _; split; [lia|constructor]|by eexists].
  - cbn [store_parts]. unfold accepted at 1.
    destruct (String.eqb_spec (fieldname file) field) as [Hf|Hf].
    2:{ split; [by intros [? [=]]|].
        intros [_ [[? _] _]%Forall_cons_1]. done. }
    destruct limit as [|limit].
    { split; [by intros [? [=]]|]. simpl. lia. }
    unfold store_file.
    destruct (FILE_TYPE_MAP (mimetype file)) as [ext|] eqn:Hext.
    2:{ split; [by intros [? [=]]|].
        intros [_ [[_ [? Hx]] _]%Forall_cons_1].
        rewrite Hext in Hx. done. }
    world_simpl. specialize (IH limit (Date_now w).2).
    unfold Date_now in IH. cbn [snd] in IH.
    destruct (store_parts field limit rest _) as [[l|] w2]; cbn [fst] in *.
    + split; [intros _|by eexists].
      destruct IH as [IH _]. destruct IH as [? ?]; [by eexists|].
      split; [simpl; lia|]. constructor; [|done].
      split; [done|]. rewrite Hext. by eexists.
    + split; [by intros [? [=]]|].
      intros [Hlen [_ Hrest]%Forall_cons_1]. simpl in Hlen.
      destruct IH as [_ IH]. destruct IH as [? [=]]. split; [lia|done].
Qed.

(** X2.  What multer passes on: one name per part and in their order, each made
    of the name of the part, the time it was stored at and the extension of
    its type; only the clock has moved. *)
Theorem store_parts_names field : ∀ parts limit w,
  length parts ≤ limit → Forall (accepted field) parts →
  store_parts field limit parts w
  = (Some (stored_names (clock w) parts), later (length parts) w)
  ∧ length (stored_names (clock w) parts) = length parts.
Proof.
  induction parts as [|file rest IH]; intros limit w Hlen Hall.
  - simpl. split; [|done]. f_equal. unfold later.
    destruct w; simpl. by rewrite Nat.add_0_r.
  - apply Forall_cons_1 in Hall as [[Hf [ext Hext]] Hall].
    destruct limit as [|limit]; [simpl in Hlen; lia|].
    cbn [store_parts stored_names]. rewrite Hf, String.eqb_refl.
    unfold store_file. rewrite Hext. world_simpl.
    destruct (IH limit (Date_now w).2) as [Hrun Hn];
      [simpl in Hlen; lia|done|].
    unfold Date_now in Hrun, Hn. cbn [snd clock] in Hrun, Hn.
    rewrite Hrun. split; [|simpl; by rewrite Hn].
    f_equal. unfold later. simpl. f_equal. lia.
Qed.

End Uploads.

(* ===================================================================== *)
(** ** Uploads and the product routes                                     *)
(* ===================================================================== *)

Section ProductRoutes.
Context {N : JsNumber} {B : Bcrypt}.

Lemma store_parts_refused field parts limit w :
  ¬ (length parts ≤ limit ∧ Forall (accepted field) parts) →
  ∃ w', store_parts field limit parts w = (None, w') ∧ db w' = db w.
Proof.
  intros Hno. pose proof (store_parts_db field parts limit w) as (Hdb & _).
  destruct (store_parts field limit parts w) as [[l|] w'] eqn:Hrun.
  - destruct Hno. apply (store_parts_accepts field parts limit w).
    rewrite Hrun. by eexists.
  - by exists w'.
Qed.

(** X3.  A refused upload stops the route: the handler is not run, Express
    answers with its 500 page and the store is left as it was. *)
Theorem refused_upload_stops_route req id parts w :
  upload_form req = Multipart parts →
  (¬ (length parts ≤ 1 ∧ Forall (accepted "image") parts) →
   ∃ w', post_products req w = (default_error, w') ∧ db w' = db w)
  ∧ (¬ (length parts ≤ 10 ∧ Forall (accepted "images") parts) →
     ∃ w', put_gallery_images req id w = (default_error, w') ∧ db w' = db w).
Proof.
  intros Hf. split; intros Hno.
  - destruct (store_parts_refused _ _ _ w Hno) as (w' & Hrun & Hdb).
    exists w'. unfold post_products, upload_single. by rewrite Hf, Hrun.
  - destruct (store_parts_refused _ _ _ w Hno) as (w' & Hrun & Hdb).
    exists w'. unfold put_gallery_images, upload_array. by rewrite Hf, Hrun.
Qed.

(** The run of a product creation with one accepted image. *)
Lemma post_products_run req file extension w :
  upload_form req = Multipart [file] →
  fieldname file = "image" →
  FILE_TYPE_MAP (mimetype file) = Some extension →
  hd Fulfil (faults w) = Fulfil → below (next_oid w) (Products (db w)) →
  let product :=
    {| Product.name := body_name req;
       Product.description := body_description req;
       Product.detailDescription := body_detailDescription req;
       Product.image :=
         basePath req +:+ storage_filename file (clock w) extension;
       Product.images := [];
       Product.price := body_price req;
       Product.stock := body_stock req |} in
  ∃ w',
    post_products req w = (send (JProduct (next_oid w) product) res0, w')
    ∧ Products (db w') = <[next_oid w := product]> (Products (db w))
    ∧ faults w' = tl (faults w).
Proof.
  intros Hf Hfield Hext Hok Hb product.
  unfold post_products, upload_single. rewrite Hf.
  cbn [store_parts]. rewrite Hfield, String.eqb_refl.
  unfold store_file. rewrite Hext. world_simpl. cbn [head].
  unfold create_product. world_simpl. rewrite Hok. unfold save.
  rewrite (below_fresh _ _ _ Hb (Nat.le_refl _)).
  eexists. split; [reflexivity|]. by world_simpl.
Qed.

(** X4.  A product creation with one image of a known type, when the save goes
    through: the answer is 200 with the new product, whose [image] is the
    protocol and the host of the request, the uploads path and the name the
    file was stored under, whose gallery is empty and whose other fields are
    those of the request. *)
Theorem post_products_created req file extension w :
  upload_form req = Multipart [file] →
  fieldname file = "image" →
  FILE_TYPE_MAP (mimetype file) = Some extension →
  hd Fulfil (faults w) = Fulfil → below (next_oid w) (Products (db w)) →
  ∃ p w',
    post_products req w = (send (JProduct (next_oid w) p) res0, w')
    ∧ Products (db w') !! next_oid w = Some p
    ∧ Product.image p
      = (protocol req +:+ "://" +:+ host req +:+ "/public/uploads/")
        +:+ dashes (originalname file) +:+ "-" +:+ pretty (clock w)
        +:+ "." +:+ extension
    ∧ Product.images p = []
    ∧ Product.name p = body_name req
    ∧ Product.price p = body_price req
    ∧ Product.stock p = body_stock req.
Proof.
  intros Hf Hfield Hext Hok Hb.
  destruct (post_products_run req file extension w Hf Hfield Hext Hok Hb)
    as (w' & Hrun & Hp & _).
  eexists _, w'. split; [exact Hrun|]. rewrite Hp.
  split; [apply lookup_insert_eq|done].
Qed.

(** X5.  Create, then read: the product a creation answers with is the one a
    read of its id answers with afterwards. *)
Theorem post_products_then_get req file extension w :
  upload_form req = Multipart [file] →
  fieldname file = "image" →
  FILE_TYPE_MAP (mimetype file) = Some extension →
  calm w → below (next_oid w) (Products (db w)) →
  ∃ p,
    sent (post_products req w).1 = [(200, JProduct (next_oid w) p)]
    ∧ sent (get_product (next_oid w) (post_products req w).2).1
      = [(200, JProduct (next_oid w) p)].
Proof.
  intros Hf Hfield Hext Hc Hb.
  destruct (post_products_run req file extension w Hf Hfield Hext
              (calm_hd w Hc) Hb) as (w' & -> & Hp & Hfaults).
  eexists. split; [done|]. cbn [snd].
  unfold get_product, findById. world_simpl.
  rewrite Hfaults, Hp, lookup_insert_eq.
  assert (hd Fulfil (tl (faults w)) = Fulfil) as ->; [|done].
  unfold calm in Hc. destruct (faults w) as [|o [|o' l]]; try done.
  by apply Forall_cons_1 in Hc as [_ [-> _]%Forall_cons_1].
Qed.

(** X6.  A product creation stores a product exactly when it answers 200: either
    the answer is the 200 with a product that is new under its id, or the
    answer is not a 200 and the Products are what they were.  The other
    collections are never touched. *)
Theorem post_products_stores_iff_200 req w :
  Users (db (post_products req w).2) = Users (db w)
  ∧ OrderItems (db (post_products req w).2) = OrderItems (db w)
  ∧ Orders (db (post_products req w).2) = Orders (db w)
  ∧ ((∃ p, sent (post_products req w).1 = [(200, JProduct (next_oid w) p)]
           ∧ Products (db w) !! next_oid w = None
           ∧ Products (db (post_products req w).2)
             = <[next_oid w := p]> (Products (db w)))
     ∨ (¬ answers_200 (post_products req w).1
        ∧ Products (db (post_products req w).2) = Products (db w))).
Proof.
  assert (∀ file w1, db w1 = db w → next_oid w1 = next_oid w →
    let run := create_product req file w1 in
    Users (db run.2) = Users (db w)
    ∧ OrderItems (db run.2) = OrderItems (db w)
    ∧ Orders (db run.2) = Orders (db w)
    ∧ ((∃ p, sent run.1 = [(200, JProduct (next_oid w) p)]
             ∧ Products (db w) !! next_oid w = None
             ∧ Products (db run.2) = <[next_oid w := p]> (Products (db w)))
       ∨ (¬ answers_200 run.1 ∧ Products (db run.2) = Products (db w))))
    as Hcreate.
  { intros [fileName|] w1 Hdb Hn; unfold create_product; world_simpl.
    2:{ rewrite Hdb. repeat split; try done. right.
        split; [by intros [b [=]]|done]. }
    rewrite Hdb, Hn. unfold save.
    destruct (hd Fulfil (faults w1));
      [destruct (Products (db w) !! next_oid w) eqn:Hid|..]; cbn;
      repeat split; try done.
    - right. split; [by intros [b [=]]|done].
    - left. eexists. by repeat split.
    - right. split; [by intros [b [=]]|done].
    - right. split; [by intros [b [=]]|done]. }
  unfold post_products, upload_single.
  destruct (upload_form req) as [|parts]; [by apply Hcreate|].
  pose proof (store_parts_db "image" parts 1 w) as (Hdb & Hn & _).
  destruct (store_parts "image" 1 parts w) as [[l|] w1];
    cbn [snd] in Hdb, Hn; [by apply Hcreate|].
  cbn. rewrite Hdb. repeat split; try done.
  right. split; [by intros [b [=]]|done].
Qed.

End ProductRoutes.

(* ===================================================================== *)
(** ** The reads                                                          *)
(* ===================================================================== *)

Section Reads.
Context {N : JsNumber} {B : Bcrypt}.

(** X7.  No read changes the store, hands out an id or issues anything. *)
Theorem reads_leave_the_store id w :
  Forall (λ w', db w' = db w ∧ next_oid w' = next_oid w
                ∧ in_flight w' = in_flight w)
    [(get_products w).2; (get_product id w).2;
     (get_users w).2; (get_user id w).2].
Proof.
  repeat constructor;
    unfold get_products, get_product, get_users, get_user, find, findById;
    world_simpl;
    destruct (hd Fulfil (faults w)); try done;
    by destruct (_ !! id).
Qed.

(** X8.  A read by an id that nothing is stored under, when the driver does
    not reject the call (which it does for an id that it cannot cast),
    answers once, with the 404 of its collection. *)
Theorem get_by_id_missing id w :
  hd Fulfil (faults w) ≠ Reject →
  (Products (db w) !! id = None →
   sent (get_product id w).1
   = [(404, message false "Product with given ID is not found")])
  ∧ (Users (db w) !! id = None →
     sent (get_user id w).1
     = [(404, message false "User with given ID is not found")]).
Proof.
  intros Hok. unfold get_product, get_user, findById. world_simpl.
  destruct (hd Fulfil (faults w)); [|done..]; by split; intros ->.
Qed.

(** X9.  A read that the driver rejects: the [catch] callback of each of the four
    answers 400, and as it returns [res] the handler takes that for the
    result and hands it to [send] once more. *)
Theorem rejected_reads_answer_twice id w :
  hd Fulfil (faults w) = Reject →
  Forall (λ r, sent r = [(400, message false "Internal Server Error");
                         (400, JRes)])
    [(get_products w).1; (get_product id w).1;
     (get_users w).1; (get_user id w).1].
Proof.
  intros Hno. repeat constructor;
    unfold get_products, get_product, get_users, get_user, find, findById;
    world_simpl; by rewrite Hno.
Qed.

End Reads.

(* ===================================================================== *)
(** ** The user routes                                                    *)
(* ===================================================================== *)

Section UserRoutes.
Context {N : JsNumber} {B : Bcrypt}.

(** The run of a user creation where bcrypt gives a hash and the save goes
    through. *)
Lemma post_users_run req h w :
  bcrypt_hash (body_password req) 11 (entropy w) = Some h →
  hd Fulfil (faults w) = Fulfil → below (next_oid w) (Users (db w)) →
  ∃ w',
    post_users req w = (send (JUser (next_oid w) (user_fields req h)) res0, w')
    ∧ Users (db w') = <[next_oid w := user_fields req h]> (Users (db w))
    ∧ faults w' = tl (faults w).
Proof.
  intros Hh Hok Hb. unfold post_users. world_simpl. rewrite Hh.
  world_simpl. rewrite Hok. unfold save.
  rewrite (below_fresh _ _ _ Hb (Nat.le_refl _)).
  eexists. split; [reflexivity|]. by world_simpl.
Qed.

Lemma calm_second w : calm w → hd Fulfil (tl (faults w)) = Fulfil.
Proof.
  unfold calm. destruct (faults w) as [|o [|o' l]]; try done.
  by intros [_ [-> _]%Forall_cons_1]%Forall_cons_1.
Qed.

(** X10.  Create, then read: the user is stored with the hash that bcrypt gave,
    and a read of the new id answers with that document, hash included. *)
Theorem post_users_then_get req h w :
  bcrypt_hash (body_password req) 11 (entropy w) = Some h →
  calm w → below (next_oid w) (Users (db w)) →
  sent (post_users req w).1 = [(200, JUser (next_oid w) (user_fields req h))]
  ∧ sent (get_user (next_oid w) (post_users req w).2).1
    = [(200, JUser (next_oid w) (user_fields req h))]
  ∧ User.password (user_fields req h) = h.
Proof.
  intros Hh Hc Hb.
  destruct (post_users_run req h w Hh (calm_hd w Hc) Hb)
    as (w' & -> & Hu & Hfaults).
  split; [done|]. split; [|done]. cbn [snd].
  unfold get_user, findById. world_simpl.
  by rewrite Hfaults, (calm_second w Hc), Hu, lookup_insert_eq.
Qed.

(** X11.  A user creation stores a user exactly when it answers 200: either bcrypt
    gave a hash and the answer is the 200 with the user, new under its id and
    holding that hash, or the answer is not a 200 and the Users are what they
    were.  The other collections are never touched. *)
Theorem post_users_stores_iff_200 req w :
  Products (db (post_users req w).2) = Products (db w)
  ∧ OrderItems (db (post_users req w).2) = OrderItems (db w)
  ∧ Orders (db (post_users req w).2) = Orders (db w)
  ∧ ((∃ h, bcrypt_hash (body_password req) 11 (entropy w) = Some h
           ∧ sent (post_users req w).1
             = [(200, JUser (next_oid w) (user_fields req h))]
           ∧ Users (db w) !! next_oid w = None
           ∧ Users (db (post_users req w).2)
             = <[next_oid w := user_fields req h]> (Users (db w)))
     ∨ (¬ answers_200 (post_users req w).1
        ∧ Users (db (post_users req w).2) = Users (db w))).
Proof.
  unfold post_users. world_simpl.
  destruct (bcrypt_hash _ _ _) as [h|] eqn:Hh.
  2:{ repeat split; try done. right. split; [by intros [b [=]]|done]. }
  world_simpl. unfold save.
  destruct (hd Fulfil (faults w));
    [destruct (Users (db w) !! next_oid w) eqn:Hid|..]; cbn;
    repeat split; try done.
  - right. split; [by intros [b [=]]|done].
  - left. exists h. by repeat split.
  - right. split; [by intros [b [=]]|done].
  - right. split; [by intros [b [=]]|done].
Qed.

(** X13.  A user update never creates a user and never touches another one than
    the one of its id, nor another collection. *)
Theorem put_user_frame id req w :
  dom (Users (db (put_user id req w).2)) = dom (Users (db w))
  ∧ (∀ j, j ≠ id →
       Users (db (put_user id req w).2) !! j = Users (db w) !! j)
  ∧ Products (db (put_user id req w).2) = Products (db w)
  ∧ OrderItems (db (put_user id req w).2) = OrderItems (db w)
  ∧ Orders (db (put_user id req w).2) = Orders (db w).
Proof.
  unfold put_user. world_simpl.
  destruct (bcrypt_hash _ _ _) as [h|]; [|done].
  world_simpl. unfold findByIdAndUpdate.
  destruct (hd Fulfil (faults w)); try done.
  destruct (Users (db w) !! id) eqn:Hid; [|done]. cbn.
  split; [apply dom_insert_lookup_L; by rewrite Hid|].
  split; [|done]. intros j Hj. by rewrite lookup_insert_ne.
Qed.

(** X15.  The removal of a stored user, with no failure: the answer is the 200,
    the user is gone and the others and the Orders are as before; a read of
    the id and a second removal then answer 404. *)
Theorem delete_user_removes err id u w :
  calm w → Users (db w) !! id = Some u →
  let w' := (delete_user err id w).2 in
  sent (delete_user err id w).1
  = [(200, message true "User successfully deleted!")]
  ∧ Users (db w') = delete id (Users (db w))
  ∧ Orders (db w') = Orders (db w)
  ∧ sent (get_user id w').1
    = [(404, message false "User with given ID is not found")]
  ∧ sent (delete_user err id w').1 = [(404, message false "User not found!")].
Proof.
  intros Hc Hu w'. subst w'.
  unfold delete_user, get_user, findByIdAndRemove, findById. world_simpl.
  rewrite (calm_hd w Hc), Hu. world_simpl.
  by rewrite (calm_second w Hc), lookup_delete_eq.
Qed.

(** X16.  The removal of a user that fails.  Where the driver rejects, the [catch]
    callback answers 400 with the reason and returns [res]; the handler takes
    that for the removed user and sends the 200 of a removal as well; the
    store is what it was.  Where no user has the id, the answer is the 404
    alone and the store is what it was. *)
Theorem delete_user_failures err id w :
  (hd Fulfil (faults w) = Reject →
   sent (delete_user err id w).1
   = [(400, JEnvelope false "error" err);
      (200, message true "User successfully deleted!")]
   ∧ db (delete_user err id w).2 = db w)
  ∧ (hd Fulfil (faults w) = Fulfil → Users (db w) !! id = None →
     sent (delete_user err id w).1 = [(404, message false "User not found!")]
     ∧ db (delete_user err id w).2 = db w).
Proof.
  unfold delete_user, findByIdAndRemove. world_simpl.
  split; [intros ->|intros -> ->]; cbn; (split; [done|]);
    by destruct (db w).
Qed.

End UserRoutes.

(* ===================================================================== *)
(** ** The order routes                                                   *)
(* ===================================================================== *)

Section OrderRoutes.
Context {N : JsNumber} {B : Bcrypt}.

(** What the saves of an order creation leave alone, whatever the driver
    does. *)
Lemma save_order_items_frame items : ∀ w,
  Users (db (save_order_items items w).2) = Users (db w)
  ∧ Products (db (save_order_items items w).2) = Products (db w)
  ∧ Orders (db (save_order_items items w).2) = Orders (db w)
  ∧ OrderItems (db w) ⊆ OrderItems (db (save_order_items items w).2)
  ∧ in_flight (save_order_items items w).2 = in_flight w
  ∧ next_oid (save_order_items items w).2 = next_oid w + length items.
Proof.
  induction items as [|it rest IH]; intros w.
  - simpl. by rewrite Nat.add_0_r.
  - cbn [save_order_items]. world_simpl.
    destruct (save _ _ _ _) as [r coll] eqn:Hsave.
    match goal with |- context [save_order_items rest ?w3] =>
      specialize (IH w3); destruct (save_order_items rest w3) as [rs w4]
    end.
    cbn [snd] in *. world_simpl in IH.
    destruct IH as (-> & -> & -> & Hsub & -> & ->).
    repeat split; try done; [|simpl; lia].
    etrans; [|exact Hsub]. unfold save in Hsave.
    destruct (hd Fulfil (faults w)),
      (OrderItems (db w) !! next_oid w) eqn:Hid;
      injection Hsave as <- <-; try done.
    by apply insert_subseteq.
Qed.

Lemma total_prices_frame ids : ∀ w,
  db (total_prices ids w).2 = db w
  ∧ next_oid (total_prices ids w).2 = next_oid w
  ∧ in_flight (total_prices ids w).2 = in_flight w.
Proof.
  induction ids as [|id ids IH]; intros w; [done|].
  cbn [total_prices]. world_simpl.
  match goal with |- context [total_prices ids ?w1] =>
    specialize (IH w1); destruct (total_prices ids w1) as [rs w2]
  end.
  exact IH.
Qed.

(** X19.  An order creation never removes or replaces a document: the Users and the
    Products are what they were, and the OrderItems and the Orders of before
    are all still there, whatever fails on the way. *)
Theorem post_orders_frame req w :
  Users (db (post_orders req w).2) = Users (db w)
  ∧ Products (db (post_orders req w).2) = Products (db w)
  ∧ OrderItems (db w) ⊆ OrderItems (db (post_orders req w).2)
  ∧ Orders (db w) ⊆ Orders (db (post_orders req w).2).
Proof.
  unfold post_orders, post_orders_try.
  destruct (body_orderItems req) as [items|]; [|done].
  pose proof (save_order_items_frame items w) as (Hu & Hp & Ho & Hi & _).
  destruct (save_order_items items w) as [saved w1]. cbn [snd] in *.
  assert (Orders (db w) ⊆ Orders (db w1)) as Ho' by by rewrite Ho.
  destruct (all saved) as [ids| |]; [|cbn; by repeat split..].
  pose proof (total_prices_frame ids w1) as (Hdb & _).
  destruct (total_prices ids w1) as [prices w2]. cbn [snd] in *.
  destruct (all prices) as [totals| |];
    [|cbn; rewrite Hdb; by repeat split..].
  world_simpl. rewrite Hdb. unfold save.
  destruct (hd Fulfil (faults w2)),
    (Orders (db w1) !! next_oid w2) eqn:Hid; cbn;
    repeat split; try done.
  etrans; [exact Ho'|]. by apply insert_subseteq.
Qed.

(** The run of an order creation that goes through. *)
Lemma post_orders_run items prods usr w :
  calm w → fresh_oids w → Forall2 (refers (db w)) items prods →
  ∃ order w',
    post_orders {| body_orderItems := Some items; body_user := usr |} w
    = (send (JOrder (next_oid w + length items) order) res0, w')
    ∧ Order.orderItems order = seq (next_oid w) (length items)
    ∧ Orders (db w') = <[next_oid w + length items := order]> (Orders (db w))
    ∧ OrderItems (db w')
      = store_items (next_oid w) items (OrderItems (db w))
    ∧ Users (db w') = Users (db w) ∧ Products (db w') = Products (db w)
    ∧ in_flight w' = in_flight w ∧ calm w'.
Proof.
  intros Hc (_ & _ & Hbi & Hbo) Hp.
  unfold post_orders, post_orders_try. cbn [body_orderItems body_user].
  rewrite (save_order_items_calm items w Hc Hbi), all_values.
  set (w1 := after_calls _ _ _ w).
  assert (calm w1) as Hc1 by (unfold calm; simpl; by apply Forall_drop).
  rewrite (total_prices_calm _ items prods w1 Hc1);
    [|apply stored_items_read|exact Hp].
  rewrite all_values. world_simpl.
  rewrite (calm_hd _ (calm_skip _ _ Hc1)). unfold save.
  cbn [skip db next_oid w1 after_calls set_OrderItems Orders].
  rewrite length_seq.
  rewrite (below_fresh _ (next_oid w + length items) _ Hbo) by lia.
  eexists _, _. split; [reflexivity|]. cbn. repeat split; try done.
  unfold calm. cbn. apply Forall_tail, Forall_drop, Forall_drop, Hc.
Qed.

(** Removals that all go through leave the collection without the ids, one
    taken out after the other, and nothing else changed. *)
Lemma run_removals_calm_exact ids : ∀ w,
  calm w →
  OrderItems (db (run_removals ids w))
  = fold_left (λ coll i, delete i coll) ids (OrderItems (db w))
  ∧ Orders (db (run_removals ids w)) = Orders (db w)
  ∧ Users (db (run_removals ids w)) = Users (db w)
  ∧ Products (db (run_removals ids w)) = Products (db w).
Proof.
  induction ids as [|i ids IH]; intros w Hc; [done|].
  cbn [run_removals fold_left]. world_simpl. rewrite (calm_hd w Hc).
  unfold findByIdAndRemove.
  assert (calm (draw w).2) as Hc'.
  { unfold calm in *. cbn. by apply Forall_tail. }
  destruct (OrderItems (db w) !! i) eqn:Hi.
  - match goal with |- context [run_removals ids ?w1] =>
      destruct (IH w1) as (-> & -> & -> & ->); [exact Hc'|done]
    end.
  - match goal with |- context [run_removals ids ?w1] =>
      destruct (IH w1) as (-> & -> & -> & ->); [exact Hc'|]
    end.
    world_simpl. by rewrite (delete_id _ _ Hi).
Qed.

Lemma delete_store_items {A} (items : list A) : ∀ n i (coll : gmap oid A),
  i < n →
  delete i (store_items n items coll) = store_items n items (delete i coll).
Proof.
  induction items as [|d rest IH]; intros n i coll Hi; [done|].
  simpl. rewrite IH by lia. by rewrite delete_insert_ne by lia.
Qed.

Lemma remove_stored_items {A} (items : list A) : ∀ n (coll : gmap oid A),
  below n coll →
  fold_left (λ coll i, delete i coll) (seq n (length items))
    (store_items n items coll) = coll.
Proof.
  induction items as [|d rest IH]; intros n coll Hb; [done|].
  cbn [length seq fold_left store_items].
  rewrite delete_store_items by lia.
  rewrite delete_insert_eq, (delete_id coll n).
  - apply IH. by apply (below_mono n); [|lia].
  - by apply (below_fresh n).
Qed.

(** The run of the removal of a stored order, in full. *)
Lemma delete_order_run id order w :
  hd Fulfil (faults w) = Fulfil → Orders (db w) !! id = Some order →
  delete_order id w
  = (send (message true "Order successfully deleted!") (status 200 res0),
     issue (Order.orderItems order)
       (set_db (set_Orders (delete id (Orders (db w)))) (draw w).2)).
Proof.
  intros Hok Ho. unfold delete_order, findByIdAndRemove. world_simpl.
  by rewrite Hok, Ho.
Qed.

Lemma run_removals_in_flight ids : ∀ w,
  in_flight (run_removals ids w) = in_flight w
  ∧ next_oid (run_removals ids w) = next_oid w.
Proof.
  induction ids as [|i ids IH]; intros w; [done|].
  cbn [run_removals]. world_simpl.
  destruct (findByIdAndRemove _ _ _) as [r coll].
  match goal with |- context [run_removals ids ?w1] =>
    by destruct (IH w1) as [-> ->]
  end.
Qed.

(** X21.  Create, then remove: an order that was created and is then removed, with
    no failure and once its removals have come to their end, leaves the
    OrderItems and the Orders, as the Users and the Products, what they were
    before it was created. *)
Theorem post_orders_then_delete items prods usr w :
  calm w → fresh_oids w → in_flight w = [] →
  Forall2 (refers (db w)) items prods →
  let created :=
    (post_orders {| body_orderItems := Some items; body_user := usr |} w).2 in
  let removed := (delete_order (next_oid w + length items) created).2 in
  OrderItems (db (settle removed)) = OrderItems (db w)
  ∧ Orders (db (settle removed)) = Orders (db w)
  ∧ Users (db (settle removed)) = Users (db w)
  ∧ Products (db (settle removed)) = Products (db w)
  ∧ in_flight (settle removed) = [].
Proof.
  intros Hc Hfresh Hfl Hp created removed. subst created removed.
  destruct (post_orders_run items prods usr w Hc Hfresh Hp)
    as (order & w1 & -> & Hids & Ho & Hi & Hu & Hpr & Hfl1 & Hc1).
  cbn [snd].
  rewrite (delete_order_run _ order w1);
    [|by apply calm_hd|by rewrite Ho, lookup_insert_eq].
  cbn [snd]. unfold settle. world_simpl.
  rewrite Hfl1, Hfl, Hids. cbn [app].
  match goal with |- context [run_removals _ ?w3] =>
    destruct (run_removals_calm_exact (seq (next_oid w) (length items)) w3)
      as (-> & -> & -> & ->);
    [|rewrite (proj1 (run_removals_in_flight _ w3))]
  end.
  { unfold calm in *. cbn. by apply Forall_tail. }
  world_simpl. rewrite Hi, Ho, Hu, Hpr.
  destruct Hfresh as (_ & _ & Hbi & Hbo).
  split; [by apply remove_stored_items|].
  split; [|done].
  rewrite delete_insert_eq. apply delete_id, (below_fresh (next_oid w));
    [done|lia].
Qed.

Lemma all_thrown {A} (l : list (awaited A)) :
  Thrown ∈ l → all l = Thrown.
Proof.
  induction l as [|r l IH]; [by intros ?%elem_of_nil|].
  intros [<-|Hin]%elem_of_cons; [done|].
  cbn [all]. destruct r; [|done..]. by rewrite IH.
Qed.

(** With no failure of the driver, every line is read back; it is priced
    where its product is stored, and otherwise its callback throws. *)
Lemma total_prices_results ids : ∀ items w,
  calm w →
  Forall2 (λ id it, OrderItems (db w) !! id = Some it) ids items →
  (total_prices ids w).1
  = (λ it, match named_product (db w) it with
           | Some p => Value (line_total it p)
           | None => Thrown
           end) <$> items.
Proof.
  induction ids as [|id ids IH]; intros items w Hc Hi.
  - by apply Forall2_nil_inv_l in Hi as ->.
  - apply Forall2_cons_inv_l in Hi as (it & items' & Hit & Hi & ->).
    cbn [total_prices]. world_simpl. rewrite (calm_hd w Hc).
    match goal with |- context [total_prices ids ?w1] =>
      specialize (IH items' w1); destruct (total_prices ids w1) as [rs w2]
    end.
    cbn [fst] in *. rewrite fmap_cons, IH; [|by apply (calm_skip 1 w)|done].
    f_equal. unfold item_total, findById, named_product. rewrite Hit.
    destruct (OrderItem.product it); [|done].
    by destruct (Products (db w) !! _).
Qed.

(** X20.  An order with a line whose product is not stored, with no failure of the
    driver: every line is saved first, then the price of that line cannot be
    read, and the answer is the 500 with no Order created and the [N]
    OrderItems left in the store. *)
Theorem post_orders_missing_product items usr w :
  calm w → fresh_oids w →
  Exists (λ it, named_product (db w) it = None) items →
  ∃ w',
    post_orders {| body_orderItems := Some items; body_user := usr |} w
    = (internal_error_s, w')
    ∧ Orders (db w') = Orders (db w)
    ∧ OrderItems (db w')
      = store_items (next_oid w) items (OrderItems (db w))
    ∧ size (OrderItems (db w')) = size (OrderItems (db w)) + length items.
Proof.
  intros Hc (_ & _ & Hbi & _) Hmiss.
  unfold post_orders, post_orders_try. cbn [body_orderItems body_user].
  rewrite (save_order_items_calm items w Hc Hbi), all_values.
  set (w1 := after_calls _ _ _ w).
  assert (calm w1) as Hc1 by (unfold calm; simpl; by apply Forall_drop).
  pose proof (total_prices_results _ items w1 Hc1 (stored_items_read _ _ _))
    as Hres.
  pose proof (total_prices_frame (seq (next_oid w) (length items)) w1)
    as (Hdb & _).
  destruct (total_prices _ w1) as [prices w2]. cbn [fst snd] in Hres, Hdb.
  rewrite all_thrown.
  - eexists. split; [reflexivity|]. rewrite Hdb. cbn.
    split; [done|]. split; [done|]. by apply store_items_size.
  - rewrite Hres. apply Exists_exists in Hmiss as (it & Hin & Hnone).
    apply list_elem_of_fmap. exists it. split; [|done].
    change (named_product (db w1) it) with (named_product (db w) it).
    by rewrite Hnone.
Qed.

(** X22.  The removal of an order that fails: where no order has the id the answer
    is the 404, and where the driver rejects it is the 500 alone (the
    handler throws right after it); either way the store is what it was and
    no removal of an OrderItem is issued. *)
Theorem delete_order_failures id w :
  (hd Fulfil (faults w) = Fulfil → Orders (db w) !! id = None →
   sent (delete_order id w).1 = [(404, message false "Order not found!")]
   ∧ db (delete_order id w).2 = db w
   ∧ in_flight (delete_order id w).2 = in_flight w)
  ∧ (hd Fulfil (faults w) = Reject →
     sent (delete_order id w).1
     = [(500, message false "Internal Server Error!")]
     ∧ db (delete_order id w).2 = db w
     ∧ in_flight (delete_order id w).2 = in_flight w).
Proof.
  unfold delete_order, findByIdAndRemove. world_simpl.
  split; [intros -> ->|intros ->]; cbn; (split; [done|]);
    (split; [|done]); by destruct (db w).
Qed.

Lemma run_removals_frame ids : ∀ w,
  OrderItems (db (run_removals ids w)) ⊆ OrderItems (db w)
  ∧ Orders (db (run_removals ids w)) = Orders (db w)
  ∧ Users (db (run_removals ids w)) = Users (db w)
  ∧ Products (db (run_removals ids w)) = Products (db w).
Proof.
  induction ids as [|i ids IH]; intros w; [done|].
  cbn [run_removals]. world_simpl.
  destruct (findByIdAndRemove _ i _) as [r coll] eqn:Hrm.
  match goal with |- context [run_removals ids ?w1] =>
    destruct (IH w1) as (Hsub & -> & -> & ->)
  end.
  split; [|done]. etrans; [exact Hsub|]. world_simpl.
  unfold findByIdAndRemove in Hrm.
  destruct (hd Fulfil (faults w)), (OrderItems (db w) !! i);
    injection Hrm as <- <-; try done.
  apply delete_subseteq.
Qed.

Lemma settle_frame w :
  in_flight (settle w) = []
  ∧ OrderItems (db (settle w)) ⊆ OrderItems (db w)
  ∧ Orders (db (settle w)) = Orders (db w)
  ∧ Users (db (settle w)) = Users (db w)
  ∧ Products (db (settle w)) = Products (db w)
  ∧ next_oid (settle w) = next_oid w.
Proof.
  unfold settle.
  match goal with |- context [run_removals _ ?w1] =>
    destruct (run_removals_frame (in_flight w) w1) as (? & -> & -> & ->);
    destruct (run_removals_in_flight (in_flight w) w1) as [-> ->]
  end.
  done.
Qed.

(** X24.  The removals in flight, however they end: afterwards none is in flight,
    no OrderItem has been added or changed, and nothing but the OrderItems
    has been touched; and to end them once more changes nothing. *)
Theorem settle_only_removes w :
  in_flight (settle w) = []
  ∧ OrderItems (db (settle w)) ⊆ OrderItems (db w)
  ∧ Orders (db (settle w)) = Orders (db w)
  ∧ Users (db (settle w)) = Users (db w)
  ∧ Products (db (settle w)) = Products (db w)
  ∧ settle (settle w) = settle w.
Proof.
  pose proof (settle_frame w) as (Hfl & Hsub & Ho & Hu & Hp & _).
  repeat split; try done.
  unfold settle at 1. rewrite Hfl. cbn [run_removals].
  destruct (settle w). simpl in *. by subst.
Qed.

End OrderRoutes.

(* ===================================================================== *)
(** ** POST /orders, step by step                                         *)
(* ===================================================================== *)

Section PostOrdersSteps.
Context {N : JsNumber} {B : Bcrypt}.










End PostOrdersSteps.

(* ===================================================================== *)
(** ** The ids to come stay unused                                        *)
(* ===================================================================== *)

Section Freshness.
Context {N : JsNumber} {B : Bcrypt}.

Lemma below_delete {A} n i (coll : gmap oid A) :
  below n coll → below n (delete i coll).
Proof.
  intros Hb j [x Hj]. apply Hb. exists x.
  rewrite lookup_delete in Hj. by case_decide.
Qed.

Lemma below_insert_old {A} n i (d : A) coll :
  below n coll → i < n → below n (<[i := d]> coll).
Proof.
  intros Hb Hi j. rewrite lookup_insert. case_decide; [by subst|apply Hb].
Qed.

Lemma below_subseteq {A} n (coll coll' : gmap oid A) :
  coll' ⊆ coll → below n coll → below n coll'.
Proof.
  intros Hsub Hb j [x Hj]. apply Hb. exists x.
  by eapply lookup_weaken.
Qed.

Lemma fresh_oids_next w :
  fresh_oids w → fresh_oids (new_oid w).2.
Proof.
  intros (? & ? & ? & ?). unfold fresh_oids. world_simpl.
  repeat split; by apply (below_mono (next_oid w)); [|lia].
Qed.

Lemma post_orders_fresh req w :
  fresh_oids w → fresh_oids (post_orders req w).2.
Proof.
  intros Hfresh. pose proof Hfresh as (Hu & Hp & Hi & Ho).
  unfold post_orders, post_orders_try.
  destruct (body_orderItems req) as [items|]; [|done].
  pose proof (save_order_items_frame items w) as (Hu1 & Hp1 & Ho1 & _ & _ & Hn1).
  destruct (save_order_items items w) as [saved w1] eqn:Hrun.
  apply save_order_items_effect in Hrun as (Hi1 & Hle & _); [|done].
  cbn [snd] in *.
  assert (fresh_oids w1) as Hfresh1.
  { unfold fresh_oids. rewrite Hu1, Hp1, Ho1.
    repeat split; try done; by apply (below_mono (next_oid w)). }
  destruct (all saved) as [ids| |]; [|done..].
  pose proof (total_prices_frame ids w1) as (Hdb & Hn2 & _).
  destruct (total_prices ids w1) as [prices w2]. cbn [snd] in *.
  assert (fresh_oids w2) as Hfresh2.
  { unfold fresh_oids. by rewrite Hdb, Hn2. }
  destruct (all prices) as [totals| |]; [|done..].
  destruct Hfresh2 as (Hu2 & Hp2 & Hi2 & Ho2).
  world_simpl. unfold save.
  destruct (hd Fulfil (faults w2)), (Orders (db w2) !! next_oid w2);
    unfold fresh_oids; cbn;
    repeat split;
    try (by apply (below_mono (next_oid w2)); [|lia]).
  by apply below_insert.
Qed.

(** X25.  Every route that writes keeps the ids to come unused, whatever the driver
    does; so does the end of the removals in flight.  A world that satisfies
    the condition of the statements above satisfies it again after any
    request. *)
Theorem routes_keep_oids_fresh oreq preq ureq err id w :
  fresh_oids w →
  Forall fresh_oids
    [(post_orders oreq w).2; (delete_order id w).2; settle w;
     (post_products preq w).2; (put_gallery_images preq id w).2;
     (post_users ureq w).2; (put_user id ureq w).2;
     (delete_user err id w).2].
Proof.
  intros Hfresh. pose proof Hfresh as (Hu & Hp & Hi & Ho).
  repeat apply Forall_cons_2; [..|constructor].
  - by apply post_orders_fresh.
  - unfold delete_order, findByIdAndRemove. world_simpl.
    destruct (hd Fulfil (faults w)), (Orders (db w) !! id);
      unfold fresh_oids; cbn; repeat split; try done.
    by apply below_delete.
  - pose proof (settle_frame w) as (_ & Hsub & Ho' & Hu' & Hp' & Hn).
    unfold fresh_oids. rewrite Ho', Hu', Hp', Hn.
    repeat split; try done. by eapply below_subseteq.
  - unfold post_products, upload_single.
    assert (∀ file w1, fresh_oids w1 →
              fresh_oids (create_product preq file w1).2) as Hcreate.
    { intros [fileName|] w1 (Hu1 & Hp1 & Hi1 & Ho1); [|done].
      unfold create_product. world_simpl. unfold save.
      destruct (hd Fulfil (faults w1)), (Products (db w1) !! next_oid w1);
        unfold fresh_oids; cbn; repeat split;
        try (by apply (below_mono (next_oid w1)); [|lia]).
      by apply below_insert. }
    destruct (upload_form preq) as [|parts]; [by apply Hcreate|].
    pose proof (store_parts_db "image" parts 1 w) as (Hdb & Hn & _).
    destruct (store_parts "image" 1 parts w) as [[l|] w1];
      cbn [snd] in Hdb, Hn;
      [apply Hcreate|cbn [snd]]; unfold fresh_oids; by rewrite Hdb, Hn.
  - unfold put_gallery_images, upload_array.
    assert (∀ files w1, fresh_oids w1 →
              fresh_oids (replace_gallery preq id files w1).2) as Hreplace.
    { intros [files|] w1 (Hu1 & Hp1 & Hi1 & Ho1); [|done].
      unfold replace_gallery, findByIdAndUpdate. world_simpl.
      destruct (hd Fulfil (faults w1)), (Products (db w1) !! id) eqn:Hid;
        unfold fresh_oids; cbn; repeat split; try done.
      apply below_insert_old; [done|]. apply Hp1. by rewrite Hid. }
    destruct (upload_form preq) as [|parts]; [by apply Hreplace|].
    pose proof (store_parts_db "images" parts 10 w) as (Hdb & Hn & _).
    destruct (store_parts "images" 10 parts w) as [[l|] w1];
      cbn [snd] in Hdb, Hn;
      [apply Hreplace|cbn [snd]]; unfold fresh_oids; by rewrite Hdb, Hn.
  - unfold post_users. world_simpl.
    destruct (bcrypt_hash _ _ _); [|done]. world_simpl. unfold save.
    destruct (hd Fulfil (faults w)), (Users (db w) !! next_oid w);
      unfold fresh_oids; cbn; repeat split;
      try (by apply (below_mono (next_oid w)); [|lia]).
    by apply below_insert.
  - unfold put_user. world_simpl.
    destruct (bcrypt_hash _ _ _); [|done]. world_simpl.
    unfold findByIdAndUpdate.
    destruct (hd Fulfil (faults w)), (Users (db w) !! id) eqn:Hid;
      unfold fresh_oids; cbn; repeat split; try done.
    apply below_insert_old; [done|]. apply Hu. by rewrite Hid.
  - unfold delete_user, findByIdAndRemove. world_simpl.
    destruct (hd Fulfil (faults w)), (Users (db w) !! id);
      unfold fresh_oids; cbn; repeat split; try done.
    by apply below_delete.
Qed.

End Freshness.

(* ===================================================================== *)
(** ** Runs on the shop                                                   *)
(* ===================================================================== *)

Lemma below_empty {A} n : below n (∅ : gmap oid A).
Proof. intros i [x Hx]. by rewrite lookup_empty in Hx. Qed.

Lemma below_singleton {A} n i (d : A) : i < n → below n ({[i := d]} : gmap oid A).
Proof.
  intros Hi j [x Hx]. destruct (decide (j = i)) as [->|]; [done|].
  by rewrite lookup_singleton_ne in Hx.
Qed.

Lemma shop_fresh : fresh_oids shop.
Proof.
  repeat split; try apply below_empty. apply below_singleton. simpl. lia.
Qed.

Lemma shop_of_ragil_fresh : fresh_oids shop_of_ragil.
Proof.
  repeat split; try apply below_empty; apply below_singleton; simpl; lia.
Qed.

Lemma shop_ordered_fresh : fresh_oids (shop_ordered []).
Proof.
  repeat split; try apply below_empty; apply below_singleton; simpl; lia.
Qed.

(** The file of the shirt is stored under a name without a space. *)
Lemma storage_filename_spaceless_witness :
  storage_filename shirt_png 0 "png" = "my-shirt.png-0.png"
  ∧ has_space (storage_filename shirt_png 0 "png") = false.
Proof.
  split; [reflexivity|].
  destruct (storage_filename_spaceless shirt_png 0)
    as (extension & [= <-] & _ & Hspace).
  - apply list_elem_of_here.
  - exact Hspace.
Defined.

(** A part sent as of type [constructor] is stored, under a name that ends in
    the text of a function. *)
Lemma inherited_types_pass_witness :
  let file :=
    {| fieldname := "image"; originalname := "a.png";
       mimetype := "constructor" |} in
  (store_file file shop).1
  = Some "a.png-0.function Object() { [native code] }"
  ∧ sent (post_products (shirt_req (Multipart [file])) shop).1
    = [(200, JProduct 1
               (@Product.Build_doc Z_number (Some "Shirt") (Some "d") None
                  ("http://localhost:3000/public/uploads/"
                   +:+ "a.png-0.function Object() { [native code] }")
                  [] 1000%Z 5%Z))].
Proof.
  intros file.
  destruct (@inherited_types_pass Z_number file 0)
    as (extension & [= <-] & Hstore & _).
  - right. apply list_elem_of_here.
  - split; [by rewrite Hstore|reflexivity].
Defined.

(** Two files for the gallery are stored one after the other. *)
Lemma store_parts_names_witness :
  (store_parts "images" 10 [front_png; front_png] shop).1
  = Some ["front-view.png-0.png"; "front-view.png-1.png"].
Proof.
  destruct (store_parts_names "images" [front_png; front_png] 10 shop)
    as [-> _].
  - simpl. lia.
  - repeat constructor; by eexists.
  - reflexivity.
Defined.

(** A part under the field of neither route stops both of them. *)
Lemma refused_upload_stops_route_witness :
  let req :=
    gallery_req
      (Multipart [{| fieldname := "photo"; originalname := "a.png";
                     mimetype := "image/png" |}]) in
  (post_products req shop).1 = default_error
  ∧ (put_gallery_images req 0 shop).1 = default_error
  ∧ Products (db (put_gallery_images req 0 shop).2) !! 0 = Some shirt.
Proof.
  intros req.
  destruct (refused_upload_stops_route req 0 _ shop eq_refl) as [H1 H2].
  destruct H1 as (w1 & -> & _).
  { intros [_ [[[=] _] _]%Forall_cons_1]. }
  destruct H2 as (w2 & -> & Hdb).
  { intros [_ [[[=] _] _]%Forall_cons_1]. }
  cbn [fst snd]. rewrite Hdb. split; [done|]. split; reflexivity.
Defined.

(** The product creation of the shop: the shirt at 1000 with its PNG. *)
Lemma post_products_created_witness :
  ∃ p w',
    post_products (shirt_req (Multipart [shirt_png])) shop
    = (send (JProduct 1 p) res0, w')
    ∧ Product.image p
      = "http://localhost:3000/public/uploads/my-shirt.png-0.png"
    ∧ Product.price p = 1000%Z.
Proof.
  destruct (post_products_created (shirt_req (Multipart [shirt_png]))
              shirt_png "png" shop eq_refl eq_refl eq_refl eq_refl)
    as (p & w' & Hrun & _ & Himage & _ & _ & Hprice & _).
  - apply shop_fresh.
  - exists p, w'. split; [exact Hrun|]. split; [exact Himage|exact Hprice].
Defined.

Lemma post_products_then_get_witness :
  ∃ p,
    sent (post_products (shirt_req (Multipart [shirt_png])) shop).1
    = [(200, JProduct 1 p)]
    ∧ sent (get_product 1
              (post_products (shirt_req (Multipart [shirt_png])) shop).2).1
      = [(200, JProduct 1 p)].
Proof.
  apply (post_products_then_get (shirt_req (Multipart [shirt_png]))
           shirt_png "png" shop eq_refl eq_refl eq_refl).
  - constructor.
  - apply shop_fresh.
Defined.

(** Nothing is stored under 9 in the shop. *)
Lemma get_by_id_missing_witness :
  sent (get_product 9 shop).1
  = [(404, message false "Product with given ID is not found")]
  ∧ sent (get_user 9 shop).1
    = [(404, message false "User with given ID is not found")].
Proof.
  destruct (get_by_id_missing 9 shop) as [Hp Hu]; [done|].
  split; [apply Hp|apply Hu]; reflexivity.
Defined.

Lemma rejected_reads_answer_twice_witness :
  Forall (λ r, sent r = [(400, message false "Internal Server Error");
                         (400, JRes)])
    [(get_products (shop_with [Reject] ∅ ∅ ∅ 1)).1;
     (get_product 0 (shop_with [Reject] ∅ ∅ ∅ 1)).1;
     (get_users (shop_with [Reject] ∅ ∅ ∅ 1)).1;
     (get_user 0 (shop_with [Reject] ∅ ∅ ∅ 1)).1].
Proof.
  apply (rejected_reads_answer_twice 0 (shop_with [Reject] ∅ ∅ ∅ 1)).
  reflexivity.
Defined.

Lemma post_users_then_get_witness :
  sent (@get_user Z_number 5
          (@post_users Z_number tag_bcrypt
             (new_password (Some "thisispassword")) shop_of_ragil).2).1
  = [(200, JUser 5 (user_fields (new_password (Some "thisispassword"))
                      "$thisispassword"))].
Proof.
  destruct (@post_users_then_get Z_number tag_bcrypt
              (new_password (Some "thisispassword")) "$thisispassword"
              shop_of_ragil eq_refl) as (_ & Hget & _).
  - constructor.
  - apply shop_of_ragil_fresh.
  - exact Hget.
Defined.

Lemma delete_user_removes_witness :
  sent (delete_user "{}" 4 shop_of_ragil).1
  = [(200, message true "User successfully deleted!")]
  ∧ Users (db (delete_user "{}" 4 shop_of_ragil).2) !! 4 = None.
Proof.
  destruct (delete_user_removes "{}" 4 ragil shop_of_ragil)
    as (Hsent & Husers & _).
  - constructor.
  - reflexivity.
  - split; [exact Hsent|]. rewrite Husers. apply lookup_delete_eq.
Defined.

(** The order of two shirts is created and removed again. *)
Lemma post_orders_then_delete_witness :
  let created :=
    (post_orders {| body_orderItems := Some [two_shirts];
                    body_user := Some 7 |} shop).2 in
  OrderItems (db (settle (delete_order 2 created).2)) = ∅
  ∧ Orders (db (settle (delete_order 2 created).2)) = ∅.
Proof.
  destruct (post_orders_then_delete [two_shirts] [shirt] (Some 7) shop)
    as (Hi & Ho & _).
  - constructor.
  - apply shop_fresh.
  - reflexivity.
  - repeat constructor. by exists 0.
  - split; [exact Hi|exact Ho].
Defined.

(** Two of a product that the shop does not have. *)
Lemma post_orders_missing_product_witness :
  ∃ w',
    post_orders
      {| body_orderItems := Some [@OrderItem.Build_doc Z_number 2%Z (Some 9)];
         body_user := Some 7 |} shop
    = (internal_error_s, w')
    ∧ Orders (db w') = ∅
    ∧ size (OrderItems (db w')) = 1.
Proof.
  destruct (post_orders_missing_product
              [@OrderItem.Build_doc Z_number 2%Z (Some 9)] (Some 7) shop)
    as (w' & Hrun & Ho & _ & Hsize).
  - constructor.
  - apply shop_fresh.
  - constructor. reflexivity.
  - exists w'. split; [exact Hrun|]. split; [exact Ho|exact Hsize].
Defined.

Lemma routes_keep_oids_fresh_witness :
  fresh_oids
    (post_orders {| body_orderItems := Some [two_shirts];
                    body_user := Some 7 |} shop).2
  ∧ fresh_oids (delete_order 2 (shop_ordered [])).2.
Proof.
  split.
  - pose proof (@routes_keep_oids_fresh Z_number tag_bcrypt
                  {| body_orderItems := Some [two_shirts];
                     body_user := Some 7 |}
                  (gallery_req NotMultipart) (new_password None) "{}" 0 shop
                  shop_fresh) as H.
    by apply Forall_cons_1 in H as [H _].
  - pose proof (@routes_keep_oids_fresh Z_number tag_bcrypt
                  {| body_orderItems := None; body_user := None |}
                  (gallery_req NotMultipart) (new_password None) "{}" 2
                  (shop_ordered []) shop_ordered_fresh) as H.
    by apply Forall_cons_1 in H as [_ [H _]%Forall_cons_1].
Defined.

(** The removal of order 2 and the end of the removal of its item. *)
Lemma delete_order_settled_witness :
  OrderItems (db (settle (delete_order 2 (shop_ordered [])).2)) !! 1 = None.
Proof.
  apply (delete_order_settled 2 shirt_order (shop_ordered [])).
  - constructor.
  - reflexivity.
  - apply list_elem_of_singleton. reflexivity.
Defined.

(** The gallery of the shirt replaced by one image, and the gallery of a
    product that is not stored. *)
Lemma put_gallery_images_stored_witness :
  (∃ r w',
     put_gallery_images (gallery_req (Multipart [front_png])) 0 shop = (r, w')
     ∧ Products (db w') !! 0
       = Some (Product.set_images
                 ["http://localhost:3000/public/uploads/front-view.png-0.png"]
                 shirt))
  ∧ (∃ r w',
       put_gallery_images (gallery_req (Multipart [front_png])) 9 shop
       = (r, w')
       ∧ sent r
         = [(404, message false "Product with given ID is not found!")]).
Proof.
  split.
  - destruct (put_gallery_images_stored (gallery_req (Multipart [front_png]))
                0 [front_png] _ shop _ eq_refl eq_refl eq_refl)
      as (r & w' & Hrun & _ & Hp).
    exists r, w'. split; [exact Hrun|]. rewrite Hp. apply lookup_insert_eq.
  - destruct (put_gallery_images_stored (gallery_req (Multipart [front_png]))
                9 [front_png] _ shop _ eq_refl eq_refl eq_refl)
      as (r & w' & Hrun & Hr & _).
    exists r, w'. split; [exact Hrun|exact Hr].
Defined.

(* ===================================================================== *)
(** ** Requests one after the other                                       *)
(* ===================================================================== *)

Section Sequences.
Context {N : JsNumber} {B : Bcrypt}.

(** The world after a user creation that goes through. *)
Lemma post_users_world req h w :
  bcrypt_hash (body_password req) 11 (entropy w) = Some h →
  hd Fulfil (faults w) = Fulfil → below (next_oid w) (Users (db w)) →
  post_users req w
  = (send (JUser (next_oid w) (user_fields req h)) res0,
     set_db (set_Users (<[next_oid w := user_fields req h]> (Users (db w))))
       (draw (new_oid (draw_entropy w).2).2).2).
Proof.
  intros Hh Hok Hb. unfold post_users. world_simpl. rewrite Hh.
  world_simpl. rewrite Hok. unfold save.
  by rewrite (below_fresh _ _ _ Hb (Nat.le_refl _)).
Qed.

(** X12.  The same user request twice: nothing compares the email or the name with
    those of the users there are, so with no failure both creations answer
    200 and two users with the same name and email are stored, under
    consecutive ids and each with the hash of its own salt. *)
Theorem post_users_twice req h1 h2 w :
  bcrypt_hash (body_password req) 11 (entropy w) = Some h1 →
  bcrypt_hash (body_password req) 11 (S (entropy w)) = Some h2 →
  calm w → below (next_oid w) (Users (db w)) →
  let first := post_users req w in
  let second := post_users req first.2 in
  sent first.1 = [(200, JUser (next_oid w) (user_fields req h1))]
  ∧ sent second.1 = [(200, JUser (S (next_oid w)) (user_fields req h2))]
  ∧ Users (db second.2) !! next_oid w = Some (user_fields req h1)
  ∧ Users (db second.2) !! S (next_oid w) = Some (user_fields req h2)
  ∧ size (Users (db second.2)) = S (S (size (Users (db w)))).
Proof.
  intros Hh1 Hh2 Hc Hb first second. subst first second.
  rewrite (post_users_world req h1 w Hh1 (calm_hd w Hc) Hb). cbn [fst snd].
  rewrite (post_users_world req h2); world_simpl;
    [|done|by apply calm_second|by apply below_insert].
  cbn [fst snd]. world_simpl.
  split; [done|]. split; [done|].
  split; [by rewrite lookup_insert_ne, lookup_insert_eq by lia|].
  split; [apply lookup_insert_eq|].
  rewrite !map_size_insert_None; [done|by apply (below_fresh (next_oid w))|].
  rewrite lookup_insert_ne by lia. apply (below_fresh (next_oid w)); [done|lia].
Qed.

(** X14.  Update, then read: with no failure, a read of a user that was just
    updated answers with the fields of the update and the new hash; nothing
    of the document of before is left. *)
Theorem put_user_then_get id req h u w :
  bcrypt_hash (body_password req) 11 (entropy w) = Some h →
  calm w → Users (db w) !! id = Some u →
  sent (put_user id req w).1 = [(200, JUser id (user_fields req h))]
  ∧ sent (get_user id (put_user id req w).2).1
    = [(200, JUser id (user_fields req h))].
Proof.
  intros Hh Hc Hu. unfold put_user, get_user, findByIdAndUpdate, findById.
  world_simpl. rewrite Hh. world_simpl. rewrite (calm_hd w Hc), Hu.
  world_simpl. by rewrite (calm_second w Hc), lookup_insert_eq.
Qed.

(** X18.  A gallery update changes the gallery of the product of its id and
    nothing else: no product appears or goes, the other products and the
    other fields of that product, its price among them, are what they were,
    and so are the other collections. *)
Theorem put_gallery_images_frame req id w :
  let w' := (put_gallery_images req id w).2 in
  dom (Products (db w')) = dom (Products (db w))
  ∧ (∀ j, j ≠ id → Products (db w') !! j = Products (db w) !! j)
  ∧ (∀ p p', Products (db w) !! id = Some p →
       Products (db w') !! id = Some p' →
       Product.set_images (Product.images p) p' = p)
  ∧ Users (db w') = Users (db w)
  ∧ OrderItems (db w') = OrderItems (db w)
  ∧ Orders (db w') = Orders (db w).
Proof.
  intros w'. subst w'. unfold put_gallery_images, upload_array.
  assert (∀ files w1, db w1 = db w →
    let w' := (replace_gallery req id files w1).2 in
    dom (Products (db w')) = dom (Products (db w))
    ∧ (∀ j, j ≠ id → Products (db w') !! j = Products (db w) !! j)
    ∧ (∀ p p', Products (db w) !! id = Some p →
         Products (db w') !! id = Some p' →
         Product.set_images (Product.images p) p' = p)
    ∧ Users (db w') = Users (db w)
    ∧ OrderItems (db w') = OrderItems (db w)
    ∧ Orders (db w') = Orders (db w)) as Hreplace.
  { intros files w1 Hdb w'. subst w'.
    assert (∀ p p', Products (db w) !! id = Some p →
              Products (db w) !! id = Some p' →
              Product.set_images (Product.images p) p' = p) as Hsame.
    { intros p p' -> [= <-]. by destruct p. }
    destruct files as [files|]; unfold replace_gallery; world_simpl;
      [|by rewrite Hdb].
    unfold findByIdAndUpdate. rewrite Hdb.
    destruct (hd Fulfil (faults w1)); [|done..].
    destruct (Products (db w) !! id) as [p0|] eqn:Hid; [|done]. cbn.
    split; [apply dom_insert_lookup_L; by rewrite Hid|].
    split; [intros j Hj; by rewrite lookup_insert_ne|].
    split; [|done].
    intros p p' [= <-]. rewrite lookup_insert_eq. intros [= <-].
    by destruct p0. }
  destruct (upload_form req) as [|parts]; [by apply Hreplace|].
  pose proof (store_parts_db "images" parts 10 w) as (Hdb & _).
  destruct (store_parts "images" 10 parts w) as [[l|] w1];
    cbn [snd] in Hdb; [by apply Hreplace|].
  cbn. rewrite Hdb. repeat split; try done.
  intros p p' -> [= <-]. by destruct p.
Qed.

End Sequences.

Lemma post_users_twice_witness :
  let req := new_password (Some "thisispassword") in
  let second :=
    @post_users Z_number tag_bcrypt req
      (@post_users Z_number tag_bcrypt req shop_of_ragil).2 in
  Users (db second.2) !! 5 = Some (user_fields req "$thisispassword")
  ∧ Users (db second.2) !! 6 = Some (user_fields req "$thisispassword").
Proof.
  intros req second.
  destruct (@post_users_twice Z_number tag_bcrypt req "$thisispassword"
              "$thisispassword" shop_of_ragil eq_refl eq_refl)
    as (_ & _ & H5 & H6 & _).
  - constructor.
  - apply shop_of_ragil_fresh.
  - split; [exact H5|exact H6].
Defined.

Lemma put_user_then_get_witness :
  sent (@get_user Z_number 4
          (@put_user Z_number tag_bcrypt 4 (new_password (Some "new"))
             shop_of_ragil).2).1
  = [(200, JUser 4 (user_fields (new_password (Some "new")) "$new"))].
Proof.
  destruct (@put_user_then_get Z_number tag_bcrypt 4
              (new_password (Some "new")) "$new" ragil shop_of_ragil eq_refl)
    as [_ Hget].
  - constructor.
  - reflexivity.
  - exact Hget.
Defined.



(** The other failures of C6 on the shop: a line of a product that is not
    stored, and a save of the Order that is rejected. *)
Example post_orders_failing_steps :
  let missing := @OrderItem.Build_doc Z_number 2%Z (Some 9) in
  let unpriced :=
    post_orders {| body_orderItems := Some [two_shirts; missing];
                   body_user := Some 7 |} shop in
  let unsaved :=
    post_orders {| body_orderItems := Some [two_shirts];
                   body_user := Some 7 |}
      (shop_with [Fulfil; Fulfil; Reject] ∅ ∅ ∅ 1) in
  (sent unpriced.1 = [(500, message false "Internal Server Error!s")]
   ∧ size (OrderItems (db unpriced.2)) = 2 ∧ Orders (db unpriced.2) = ∅)
  ∧ (sent unsaved.1 = [(500, message false "Internal Server Error!s")]
     ∧ size (OrderItems (db unsaved.2)) = 1 ∧ Orders (db unsaved.2) = ∅).
Proof. vm_compute. repeat split; reflexivity. Qed.
